(** * merge-conflict-action: file-overlap detection between open pull requests

    A shallow embedding of [src/main.ts].  The pure detector
    [findConflictingFiles] and the renderer [generateSummary] are plain
    functions; [getPRFiles] and [run] talk to the GitHub REST API and to the
    Actions toolkit, so they live in a small trace-and-error monad: every
    toolkit call and every API request is an event of the trace, and an API
    request may throw. *)

From Stdlib Require Import ZArith String Ascii DecimalString.
From stdpp Require Import base decidable option list sets gmap strings.

Local Open Scope string_scope.
Local Open Scope Z_scope.
Local Open Scope nat_scope.
Local Open Scope list_scope.

(** ** Data model (main.ts, lines 5-20) *)

Inductive Status : Type :=
  | added | removed | modified | renamed | copied | changed | unchanged.

#[global] Instance Status_eq_dec : EqDecision Status.
Proof. solve_decision. Defined.

Record FileChange : Type := mkFileChange {
  filename : string;
  status : Status
}.

Record ConflictWarning : Type := mkConflictWarning {
  prNumber : Z;
  prTitle : string;
  conflictingFiles : list string
}.

(** ** The conflict detector (main.ts, lines 141-151) *)

(** [f.status === 'modified' || f.status === 'removed'] *)
Definition modifiedOrRemoved (f : FileChange) : Prop :=
  status f = modified ∨ status f = removed.

#[global] Instance modifiedOrRemoved_dec f : Decision (modifiedOrRemoved f).
Proof. unfold modifiedOrRemoved. apply _. Defined.

(** [new Set(currentPRFiles.filter(...).map((f) => f.filename))] *)
Definition currentModifiedFiles (currentPRFiles : list FileChange) : gset string :=
  list_to_set (filename <$> filter modifiedOrRemoved currentPRFiles).

Definition findConflictingFiles (currentPRFiles otherPRFiles : list FileChange)
  : list string :=
  let currentModified := currentModifiedFiles currentPRFiles in
  let otherModifiedFiles :=
    filter (λ f, modifiedOrRemoved f ∧ filename f ∈ currentModified) otherPRFiles in
  filename <$> otherModifiedFiles.

(** ** Strings of the JavaScript runtime *)

Definition nl : string := String "010"%char EmptyString.
Definition dquote : string := String "034"%char EmptyString.

(** [`${n}`] for an integer [n]: decimal digits, a leading minus sign when
    negative. *)
Definition showZ (n : Z) : string := NilZero.string_of_int (Z.to_int n).
Definition showNat (n : nat) : string := showZ (Z.of_nat n).
Definition showBool (b : bool) : string := if b then "true" else "false".

(** [s.includes(sub)]: [sub] occurs somewhere in [s]. *)
Fixpoint includes (s sub : string) : bool :=
  String.prefix sub s ||
  match s with
  | EmptyString => false
  | String _ s' => includes s' sub
  end.

(** ** The summary document (main.ts, lines 153-176)

    The source accumulates the text in the local [summary] with [+=]; the two
    [for] loops are left folds over that accumulator. *)

Definition generateSummary (warnings : list ConflictWarning) : string :=
  let summary := "## Potential Merge Conflicts Detected" +:+ nl +:+ nl in
  let summary := summary +:+
    ("The following PRs modify the same files and may have conflicts when this PR is merged:"
       +:+ nl +:+ nl) in
  let summary :=
    foldl (λ summary warning,
      let summary := summary +:+
        ("### PR #" +:+ showZ (prNumber warning) +:+ ": " +:+ prTitle warning +:+ nl) in
      let summary := summary +:+
        ("**Overlapping files (" +:+ showNat (length (conflictingFiles warning))
           +:+ "):**" +:+ nl) in
      let summary :=
        foldl (λ summary file, summary +:+ ("- `" +:+ file +:+ "`" +:+ nl))
              summary (take 10 (conflictingFiles warning)) in
      let summary :=
        if 10 <? length (conflictingFiles warning)
        then summary +:+
             ("- ... and " +:+ showNat (length (conflictingFiles warning) - 10)
                +:+ " more" +:+ nl)
        else summary in
      summary +:+ nl)
    summary warnings in
  summary +:+
    ("> **Note:** This is a heuristic check based on file overlap. Actual merge conflicts may or may not occur."
       +:+ nl).

(** ** The outside world *)

(** What a [catch] clause can receive: an [Error] object with its message, or
    any other thrown value, of which only a description is kept. *)
Inductive Thrown : Type :=
  | ErrorObj (message : string)
  | NonError (value : string).

Definition Response (A : Type) : Type := Thrown + A.

(** One element of the [data] array of [pulls.listFiles]; the fields the
    action does not read are summarised by [api_sha]. *)
Record ApiFile : Type := mkApiFile {
  api_filename : string;
  api_status : Status;
  api_sha : string
}.

(** One element of the [data] array of [pulls.list]; [draft] is optional in
    the REST schema. *)
Record PullRequest : Type := mkPullRequest {
  number : Z;
  draft : option bool;
  title : string
}.

Record ListFilesParams : Type := mkListFilesParams {
  lf_owner : string;
  lf_repo : string;
  lf_pull_number : Z;
  lf_per_page : nat;
  lf_page : nat
}.

Record ListParams : Type := mkListParams {
  l_owner : string;
  l_repo : string;
  l_state : string;
  l_per_page : nat
}.

Record CreateCommentParams : Type := mkCreateCommentParams {
  cc_owner : string;
  cc_repo : string;
  cc_issue_number : Z;
  cc_body : string
}.

(** The authenticated REST client: each request either resolves with its
    [data] or rejects. *)
Record Octokit : Type := mkOctokit {
  pulls_listFiles : ListFilesParams → Response (list ApiFile);
  pulls_list : ListParams → Response (list PullRequest);
  issues_createComment : CreateCommentParams → Response unit
}.

Record RepositoryInfo : Type := mkRepositoryInfo {
  octokit : Octokit;
  owner : string;
  repo : string
}.

Inductive OutputValue : Type :=
  | OutString (s : string)
  | OutNumber (n : Z).

(** Everything the action does that is visible from outside, in order. *)
Inductive Event : Type :=
  | core_debug (msg : string)
  | core_info (msg : string)
  | core_warning (msg : string)
  | core_setFailed (msg : string)
  | core_setOutput (name : string) (value : OutputValue)
  | core_summary_write (raw : string)
  | req_listFiles (p : ListFilesParams)
  | req_list (p : ListParams)
  | req_createComment (p : CreateCommentParams).

(** Decidable equality of events, to look requests up in a trace. *)
#[global] Instance ListFilesParams_eq_dec : EqDecision ListFilesParams.
Proof. solve_decision. Defined.
#[global] Instance ListParams_eq_dec : EqDecision ListParams.
Proof. solve_decision. Defined.
#[global] Instance CreateCommentParams_eq_dec : EqDecision CreateCommentParams.
Proof. solve_decision. Defined.
#[global] Instance OutputValue_eq_dec : EqDecision OutputValue.
Proof. solve_decision. Defined.
#[global] Instance Event_eq_dec : EqDecision Event.
Proof. solve_decision. Defined.

(** ** A trace-and-error monad *)

Inductive Result (A : Type) : Type :=
  | Ok (a : A)
  | Throw (t : Thrown)
  | Diverge.
Arguments Ok {A} a.
Arguments Throw {A} t.
Arguments Diverge {A}.

Definition M (A : Type) : Type := (list Event * Result A)%type.

Definition ret {A} (a : A) : M A := ([], Ok a).

Definition bind {A B} (m : M A) (k : A → M B) : M B :=
  match m with
  | (tr, Ok a) => let '(tr', r) := k a in (tr ++ tr', r)
  | (tr, Throw t) => (tr, Throw t)
  | (tr, Diverge) => (tr, Diverge)
  end.

(** [try { m } catch (error) { handler error }] *)
Definition try_catch {A} (m : M A) (handler : Thrown → M A) : M A :=
  match m with
  | (tr, Throw t) => let '(tr', r) := handler t in (tr ++ tr', r)
  | other => other
  end.

Definition emit (e : Event) : M unit := ([e], Ok tt).

Definition await {A} (e : Event) (response : Response A) : M A :=
  match response with
  | inl t => ([e], Throw t)
  | inr data => ([e], Ok data)
  end.

Definition diverge {A} : M A := ([], Diverge).

Notation "'let!' x ':=' m 'in' k" := (bind m (λ x, k))
  (at level 10, x name, m at level 100, k at level 200).
Notation "'do!' m 'in' k" := (bind m (λ _, k))
  (at level 10, m at level 100, k at level 200).

(** ** The file fetcher (main.ts, lines 111-139)

    [while (true)] has no bound of its own: the loop is given [fuel], the
    number of pages it may request, and diverges when that runs out. *)

Definition perPage : nat := 100.

Definition toFileChange (file : ApiFile) : FileChange :=
  {| filename := api_filename file; status := api_status file |}.

Definition listFilesParams (repoInfo : RepositoryInfo) (prNumber : Z) (page : nat)
  : ListFilesParams :=
  {| lf_owner := owner repoInfo; lf_repo := repo repoInfo;
     lf_pull_number := prNumber; lf_per_page := perPage; lf_page := page |}.

Fixpoint getPRFiles_loop (fuel : nat) (repoInfo : RepositoryInfo) (prNumber : Z)
    (files : list FileChange) (page : nat) : M (list FileChange) :=
  match fuel with
  | O => diverge
  | S fuel' =>
      let params := listFilesParams repoInfo prNumber page in
      let! data := await (req_listFiles params)
                         (pulls_listFiles (octokit repoInfo) params) in
      let files := files ++ (toFileChange <$> data) in
      if length data <? perPage then ret files
      else getPRFiles_loop fuel' repoInfo prNumber files (page + 1)
  end.

Definition getPRFiles (fuel : nat) (repoInfo : RepositoryInfo) (prNumber : Z)
  : M (list FileChange) :=
  getPRFiles_loop fuel repoInfo prNumber [] 1.

(** ** Posting the comment (main.ts, lines 178-193) *)

Definition postConflictComment (repoInfo : RepositoryInfo) (prNumber : Z)
    (warnings : list ConflictWarning) : M unit :=
  let summary := generateSummary warnings in
  let params := {| cc_owner := owner repoInfo; cc_repo := repo repoInfo;
                   cc_issue_number := prNumber; cc_body := summary |} in
  do! await (req_createComment params)
            (issues_createComment (octokit repoInfo) params) in
  emit (core_info "Posted conflict warning comment to PR").

(** ** The action (main.ts, lines 22-109) *)

(** [github.context.payload.pull_request], of which only [number] is read. *)
Record PullRequestPayload : Type := mkPullRequestPayload {
  payload_number : Z
}.

(** What lines 24-34 have read once every read has returned: the three
    inputs, the client [getOctokit] builds from the token, the repository of
    the workflow and the event payload.  The reads themselves, which can
    throw, are those of [Toolkit] and [run_main] below. *)
Record Environment : Type := mkEnvironment {
  input_include_drafts : bool;
  input_post_comments : bool;
  input_github_token : string;
  getOctokit : string → Octokit;
  context_repo : string * string;
  context_payload_pull_request : option PullRequestPayload
}.

(** Truthiness of the optional boolean [pr.draft]. *)
Definition truthy (b : option bool) : bool :=
  match b with Some true => true | _ => false end.

(** The [for (const pr of prs)] loop, lines 54-76; [conflictWarnings] is the
    array the loop pushes to. *)
Fixpoint checkOpenPRs (fuel : nat) (repoInfo : RepositoryInfo)
    (currentNumber : Z) (includeDrafts : bool)
    (currentPRChangedFiles : list FileChange)
    (prs : list PullRequest) (conflictWarnings : list ConflictWarning)
  : M (list ConflictWarning) :=
  match prs with
  | [] => ret conflictWarnings
  | pr :: prs' =>
      let continue conflictWarnings :=
        checkOpenPRs fuel repoInfo currentNumber includeDrafts
                     currentPRChangedFiles prs' conflictWarnings in
      if (number pr =? currentNumber)%Z then continue conflictWarnings
      else if truthy (draft pr) && negb includeDrafts then continue conflictWarnings
      else
        let! otherPRChangedFiles := getPRFiles fuel repoInfo (number pr) in
        let conflictingFiles :=
          findConflictingFiles currentPRChangedFiles otherPRChangedFiles in
        if 0 <? length conflictingFiles then
          do! emit (core_warning
                 ("PR #" +:+ showZ (number pr) +:+ " may have conflicts: "
                    +:+ showNat (length conflictingFiles) +:+ " overlapping files")) in
          continue (conflictWarnings ++
                      [{| prNumber := number pr; prTitle := title pr;
                          conflictingFiles := conflictingFiles |}])
        else continue conflictWarnings
  end.

Section Run.

(** [JSON.stringify] on the array of records is the runtime's. *)
Variable JSON_stringify : list ConflictWarning → string.

(** The inner [catch], lines 89-97. *)
Definition onPostError (error : Thrown) : M unit :=
  match error with
  | ErrorObj message =>
      if includes message "Resource not accessible by integration"
      then emit (core_warning
                   ("Insufficient permissions to post comment. Add " +:+ dquote
                      +:+ "pull-requests: write" +:+ dquote +:+ " permission."))
      else emit (core_warning ("Failed to post comment: " +:+ message))
  | NonError _ => ret tt
  end.

(** Lines 40-76: fetch the current PR's files, list the open PRs, run the
    loop.  Nothing here is caught locally. *)
Definition collectConflicts (fuel : nat) (includeDrafts : bool)
    (repoInfo : RepositoryInfo) (currentPR : PullRequestPayload)
  : M (list ConflictWarning) :=
  do! emit (core_info ("Checking PR #" +:+ showZ (payload_number currentPR)
                         +:+ " for potential conflicts...")) in
  let! currentPRChangedFiles := getPRFiles fuel repoInfo (payload_number currentPR) in
  do! emit (core_info ("Current PR #" +:+ showZ (payload_number currentPR)
                         +:+ " modifies " +:+ showNat (length currentPRChangedFiles)
                         +:+ " files")) in
  let listParams := {| l_owner := owner repoInfo; l_repo := repo repoInfo;
                       l_state := "open"; l_per_page := 100 |} in
  let! prs := await (req_list listParams) (pulls_list (octokit repoInfo) listParams) in
  checkOpenPRs fuel repoInfo (payload_number currentPR) includeDrafts
               currentPRChangedFiles prs [].

(** Lines 78-105: outputs, summary, optional comment. *)
Definition report (postComments : bool) (repoInfo : RepositoryInfo)
    (currentPR : PullRequestPayload) (conflictWarnings : list ConflictWarning)
  : M unit :=
  if 0 <? length conflictWarnings then
    do! emit (core_setOutput "has-conflicts" (OutString "true")) in
    do! emit (core_setOutput "conflict-count"
                (OutNumber (Z.of_nat (length conflictWarnings)))) in
    do! emit (core_setOutput "conflicts"
                (OutString (JSON_stringify conflictWarnings))) in
    let summary := generateSummary conflictWarnings in
    do! emit (core_summary_write summary) in
    do! (if postComments
         then try_catch
                (postConflictComment repoInfo (payload_number currentPR)
                                     conflictWarnings)
                onPostError
         else ret tt) in
    emit (core_info ("Found " +:+ showNat (length conflictWarnings)
                       +:+ " PRs with potential conflicts"))
  else
    do! emit (core_setOutput "has-conflicts" (OutString "false")) in
    do! emit (core_setOutput "conflict-count" (OutNumber 0)) in
    emit (core_info "No potential conflicts detected with other open PRs").

(** The body of the outer [try], lines 24-105, on values already read: what
    [run_main_try] below does when none of its reads throws. *)
Definition run_try (fuel : nat) (env : Environment) : M unit :=
  let includeDrafts := input_include_drafts env in
  let postComments := input_post_comments env in
  do! emit (core_debug ("Include draft PRs: " +:+ showBool includeDrafts)) in
  let token := input_github_token env in
  let octokit := getOctokit env token in
  let '(owner, repo) := context_repo env in
  let repoInfo := {| octokit := octokit; owner := owner; repo := repo |} in
  match context_payload_pull_request env with
  | None =>
      emit (core_setFailed "This action must be triggered by a pull_request event")
  | Some currentPR =>
      let! conflictWarnings := collectConflicts fuel includeDrafts repoInfo currentPR in
      report postComments repoInfo currentPR conflictWarnings
  end.

(** The outer [catch], lines 106-108. *)
Definition onRunError (error : Thrown) : M unit :=
  match error with
  | ErrorObj message => emit (core_setFailed message)
  | NonError _ => ret tt
  end.

Definition run (fuel : nat) (env : Environment) : M unit :=
  try_catch (run_try fuel env) onRunError.

End Run.

(** ** The action with its reads (main.ts, lines 22-109)

    Lines 24-31 call the toolkit before the payload is looked at, inside the
    outer [try]: [core.getBooleanInput] throws on a value that is not a YAML
    boolean, [core.getInput] with [required: true] on an input that was not
    supplied, and so may [github.getOctokit] and the getter
    [github.context.repo].  [Toolkit] holds what each of these calls answers:
    a value or a throw. *)

Record Toolkit : Type := mkToolkit {
  (** [core.getBooleanInput(name, { required: false })] *)
  core_getBooleanInput : string → Response bool;
  (** [core.getInput(name, { required: true })] *)
  core_getInput : string → Response string;
  (** [github.getOctokit(token)] *)
  github_getOctokit : string → Response Octokit;
  (** [github.context.repo] *)
  github_context_repo : Response (string * string);
  (** [github.context.payload.pull_request] *)
  github_context_payload : option PullRequestPayload
}.

(** A call that returns or throws at once and leaves no event. *)
Definition call {A} (answer : Response A) : M A :=
  match answer with
  | inl t => ([], Throw t)
  | inr a => ret a
  end.

Section RunMain.

Variable JSON_stringify : list ConflictWarning → string.

(** The body of the outer [try], lines 24-105. *)
Definition run_main_try (fuel : nat) (tk : Toolkit) : M unit :=
  let! includeDrafts := call (core_getBooleanInput tk "include-drafts") in
  let! postComments := call (core_getBooleanInput tk "post-comments") in
  do! emit (core_debug ("Include draft PRs: " +:+ showBool includeDrafts)) in
  let! token := call (core_getInput tk "github_token") in
  let! octokit := call (github_getOctokit tk token) in
  let! ownerRepo := call (github_context_repo tk) in
  let '(owner, repo) := ownerRepo in
  let repoInfo := {| octokit := octokit; owner := owner; repo := repo |} in
  match github_context_payload tk with
  | None =>
      emit (core_setFailed "This action must be triggered by a pull_request event")
  | Some currentPR =>
      let! conflictWarnings := collectConflicts fuel includeDrafts repoInfo currentPR in
      report JSON_stringify postComments repoInfo currentPR conflictWarnings
  end.

(** [run] as main.ts exports it: the [try] and its [catch], lines 22-109. *)
Definition run_main (fuel : nat) (tk : Toolkit) : M unit :=
  try_catch (run_main_try fuel tk) onRunError.

End RunMain.

(** The values read from a toolkit all of whose reads return. *)
Definition environmentRead (includeDrafts postComments : bool) (token : string)
    (oct : Octokit) (ownerRepo : string * string)
    (payload : option PullRequestPayload) : Environment :=
  {| input_include_drafts := includeDrafts;
     input_post_comments := postComments;
     input_github_token := token;
     getOctokit := λ _, oct;
     context_repo := ownerRepo;
     context_payload_pull_request := payload |}.

(** ** Observing a trace *)

Definition outputs (tr : list Event) : list (string * OutputValue) :=
  omap (λ e, match e with core_setOutput n v => Some (n, v) | _ => None end) tr.

(** The value an output holds at the end: the last one set wins. *)
Definition getOutput (name : string) (tr : list Event) : option OutputValue :=
  last (omap (λ nv, if String.eqb nv.1 name then Some nv.2 else None) (outputs tr)).

Definition failures (tr : list Event) : list string :=
  omap (λ e, match e with core_setFailed msg => Some msg | _ => None end) tr.

Definition summaries (tr : list Event) : list string :=
  omap (λ e, match e with core_summary_write raw => Some raw | _ => None end) tr.

(** What a fetch or listing request of the trace was answered with, when it
    was rejected. *)
Definition rejection (oct : Octokit) (e : Event) : option Thrown :=
  match e with
  | req_listFiles p =>
      match pulls_listFiles oct p with inl t => Some t | inr _ => None end
  | req_list p =>
      match pulls_list oct p with inl t => Some t | inr _ => None end
  | _ => None
  end.

(** The events lines 40-76 can produce. *)
Definition fetchPhaseEvent (e : Event) : bool :=
  match e with
  | core_info _ | core_warning _ | req_listFiles _ | req_list _ => true
  | _ => false
  end.

(** The repository handle [run] builds at lines 29-32. *)
Definition repoInfoOf (env : Environment) : RepositoryInfo :=
  {| octokit := getOctokit env (input_github_token env);
     owner := (context_repo env).1;
     repo := (context_repo env).2 |}.

(** A trace without a rejected fetch or listing request. *)
Definition quiet (oct : Octokit) (tr : list Event) : Prop :=
  Forall (λ e, rejection oct e = None) tr.

(** The shape of a computation of lines 40-76: only events of that phase,
    and it throws exactly what its last request was rejected with. *)
Definition fetchPhase {A} (oct : Octokit) (m : M A) : Prop :=
  Forall (λ e, fetchPhaseEvent e = true) m.1 ∧
  match m.2 with
  | Throw t => ∃ tr e, m.1 = tr ++ [e] ∧ quiet oct tr ∧ rejection oct e = Some t
  | _ => quiet oct m.1
  end.

(** Where a record of the loop can come from: a listed PR other than the
    current one, not a draft unless drafts are included. *)
Definition admissibleRecord (currentNumber : Z) (includeDrafts : bool)
    (prs : list PullRequest) (r : ConflictWarning) : Prop :=
  ∃ pr, pr ∈ prs ∧ prNumber r = number pr ∧ prTitle r = title pr ∧
        number pr ≠ currentNumber ∧
        (includeDrafts = false → draft pr ≠ Some true).

(** [m'] is [m] run with more fuel: whatever [m] does without running out,
    [m'] does too. *)
Definition stable {A} (m m' : M A) : Prop := m.2 ≠ Diverge → m' = m.

(** ** The summary document as the specification lays it out

    Written from the layout of the specification, to be compared with
    [generateSummary]: a heading, one block per record, the closing note. *)

Definition joinAll (parts : list string) : string := foldr String.append "" parts.

Definition summaryHeading : string :=
  "## Potential Merge Conflicts Detected" +:+ nl +:+ nl +:+
  "The following PRs modify the same files and may have conflicts when this PR is merged:"
  +:+ nl +:+ nl.

Definition summaryNote : string :=
  "> **Note:** This is a heuristic check based on file overlap. Actual merge conflicts may or may not occur."
  +:+ nl.

Definition bulletLine (file : string) : string := "- `" +:+ file +:+ "`" +:+ nl.

Definition summaryBlock (record : ConflictWarning) : string :=
  let k := length (conflictingFiles record) in
  "### PR #" +:+ showZ (prNumber record) +:+ ": " +:+ prTitle record +:+ nl +:+
  "**Overlapping files (" +:+ showNat k +:+ "):**" +:+ nl +:+
  joinAll (bulletLine <$> take (k `min` 10) (conflictingFiles record)) +:+
  (if decide (10 < k) then "- ... and " +:+ showNat (k - 10) +:+ " more" +:+ nl
   else "") +:+
  nl.

Definition summaryDocument (records : list ConflictWarning) : string :=
  summaryHeading +:+ joinAll (summaryBlock <$> records) +:+ summaryNote.

(** ** Names for what [run] emits *)

Definition debugEvent (env : Environment) : Event :=
  core_debug ("Include draft PRs: " +:+ showBool (input_include_drafts env)).

Definition triggerMessage : string :=
  "This action must be triggered by a pull_request event".

Definition permissionWarning : string :=
  "Insufficient permissions to post comment. Add " +:+ dquote
    +:+ "pull-requests: write" +:+ dquote +:+ " permission.".

Definition foundEvent (records : list ConflictWarning) : Event :=
  core_info ("Found " +:+ showNat (length records) +:+ " PRs with potential conflicts").

Definition conflictOutputs (stringify : list ConflictWarning → string)
    (records : list ConflictWarning) : list (string * OutputValue) :=
  [ ("has-conflicts", OutString "true");
    ("conflict-count", OutNumber (Z.of_nat (length records)));
    ("conflicts", OutString (stringify records)) ].

Definition commentParams (repoInfo : RepositoryInfo) (prNumber : Z)
    (records : list ConflictWarning) : CreateCommentParams :=
  {| cc_owner := owner repoInfo; cc_repo := repo repoInfo;
     cc_issue_number := prNumber; cc_body := generateSummary records |}.

(** The events of lines 86-98 when posting is attempted. *)
Definition postingEvents (repoInfo : RepositoryInfo) (prNumber : Z)
    (records : list ConflictWarning) : list Event :=
  let params := commentParams repoInfo prNumber records in
  req_createComment params ::
  match issues_createComment (octokit repoInfo) params with
  | inr _ => [core_info "Posted conflict warning comment to PR"]
  | inl (ErrorObj message) =>
      [core_warning
         (if includes message "Resource not accessible by integration"
          then permissionWarning
          else "Failed to post comment: " +:+ message)]
  | inl (NonError _) => []
  end.

(** The events of lines 78-105 for the records [records]. *)
Definition reportEvents (stringify : list ConflictWarning → string)
    (postComments : bool) (repoInfo : RepositoryInfo)
    (currentPR : PullRequestPayload) (records : list ConflictWarning)
  : list Event :=
  if 0 <? length records then
    [ core_setOutput "has-conflicts" (OutString "true");
      core_setOutput "conflict-count" (OutNumber (Z.of_nat (length records)));
      core_setOutput "conflicts" (OutString (stringify records));
      core_summary_write (generateSummary records) ]
    ++ (if postComments
        then postingEvents repoInfo (payload_number currentPR) records
        else [])
    ++ [foundEvent records]
  else
    [ core_setOutput "has-conflicts" (OutString "false");
      core_setOutput "conflict-count" (OutNumber 0);
      core_info "No potential conflicts detected with other open PRs" ].

(** ** Test doubles, after __tests__/main.test.ts *)

(** A client whose file listing depends on the PR number and the page. *)
Definition mockOctokit (files : Z → nat → Response (list ApiFile))
    (prs : Response (list PullRequest)) (comment : Response unit) : Octokit :=
  {| pulls_listFiles := λ p, files (lf_pull_number p) (lf_page p);
     pulls_list := λ _, prs;
     issues_createComment := λ _, comment |}.

Definition mockEnv (includeDrafts postComments : bool) (oct : Octokit)
    (pr : option PullRequestPayload) : Environment :=
  {| input_include_drafts := includeDrafts;
     input_post_comments := postComments;
     input_github_token := "fake-token";
     getOctokit := λ _, oct;
     context_repo := ("test-owner", "test-repo");
     context_payload_pull_request := pr |}.

Definition testRepo (oct : Octokit) : RepositoryInfo :=
  {| octokit := oct; owner := "test-owner"; repo := "test-repo" |}.

Definition apiFile (name : string) (s : Status) : ApiFile :=
  {| api_filename := name; api_status := s; api_sha := "" |}.

(** The pagination test: a first page of 100 files, a second page of one. *)
Definition page1Files : list ApiFile :=
  (λ i, apiFile ("file" +:+ showNat i +:+ ".ts") modified) <$> seq 0 100.
Definition page2Files : list ApiFile := [apiFile "file100.ts" modified].
Definition paginatedFiles (pr : Z) (page : nat) : Response (list ApiFile) :=
  if page =? 1 then inr page1Files else inr page2Files.

(** The draft scenario: PR 1 is the current one, PR 2 a draft and PR 3 an
    ordinary PR, all touching [shared.ts]. *)
Definition sharedFiles (pr : Z) (page : nat) : Response (list ApiFile) :=
  if (pr =? 1)%Z
  then inr [apiFile "shared.ts" modified; apiFile "file2.ts" added]
  else inr [apiFile "shared.ts" modified; apiFile "file4.ts" added].

Definition draftPRs : list PullRequest :=
  [ {| number := 1; draft := Some false; title := "Current PR" |};
    {| number := 2; draft := Some true; title := "Draft PR" |};
    {| number := 3; draft := None; title := "Other PR" |} ].

Definition sharedOctokit (comment : Response unit) : Octokit :=
  mockOctokit sharedFiles (inr draftPRs) comment.

(** A stand-in for [JSON.stringify] in the examples. *)
Definition sampleStringify (records : list ConflictWarning) : string :=
  "[" +:+ showNat (length records) +:+ " records]".

(** Scenario E: every file listing is rejected. *)
Definition rateLimited (pr : Z) (page : nat) : Response (list ApiFile) :=
  inl (ErrorObj "API rate limit exceeded").

(** A file listing rejected with something that is not an [Error]. *)
Definition rejectedWithString (pr : Z) (page : nat) : Response (list ApiFile) :=
  inl (NonError "timeout").

(** ** More observers of a trace *)

Definition warnings (tr : list Event) : list string :=
  omap (λ e, match e with core_warning msg => Some msg | _ => None end) tr.

Definition listFilesRequests (tr : list Event) : list ListFilesParams :=
  omap (λ e, match e with req_listFiles p => Some p | _ => None end) tr.

Definition listRequests (tr : list Event) : list ListParams :=
  omap (λ e, match e with req_list p => Some p | _ => None end) tr.

Definition commentRequests (tr : list Event) : list CreateCommentParams :=
  omap (λ e, match e with req_createComment p => Some p | _ => None end) tr.

(** The warning of line 68 for a record. *)
Definition overlapWarning (r : ConflictWarning) : string :=
  "PR #" +:+ showZ (prNumber r) +:+ " may have conflicts: "
    +:+ showNat (length (conflictingFiles r)) +:+ " overlapping files".

(** The listing request of lines 45-50. *)
Definition openPRsParams (repoInfo : RepositoryInfo) : ListParams :=
  {| l_owner := owner repoInfo; l_repo := repo repoInfo;
     l_state := "open"; l_per_page := 100 |}.

(** The same surroundings with another value of [post-comments]. *)
Definition withPostComments (b : bool) (env : Environment) : Environment :=
  {| input_include_drafts := input_include_drafts env;
     input_post_comments := b;
     input_github_token := input_github_token env;
     getOctokit := getOctokit env;
     context_repo := context_repo env;
     context_payload_pull_request := context_payload_pull_request env |}.

(** More test doubles: a listing whose second page is rejected, one that
    only ever sends full pages, and a candidate that repeats a file. *)
Definition failsOnPage2 (pr : Z) (page : nat) : Response (list ApiFile) :=
  if page =? 1 then inr page1Files else inl (ErrorObj "Server Error").

Definition alwaysFull (pr : Z) (page : nat) : Response (list ApiFile) :=
  inr page1Files.

Definition ordinaryPRs : list PullRequest :=
  [ {| number := 1; draft := Some false; title := "Current PR" |};
    {| number := 3; draft := None; title := "Other PR" |} ].

(** A toolkit for the tests: the two flags, the token, and a client and
    repository that are always there. *)
Definition mockToolkit (includeDrafts postComments : Response bool)
    (token : Response string) (oct : Octokit)
    (pr : option PullRequestPayload) : Toolkit :=
  {| core_getBooleanInput := λ name,
       if String.eqb name "include-drafts" then includeDrafts else postComments;
     core_getInput := λ _, token;
     github_getOctokit := λ _, inr oct;
     github_context_repo := inr ("test-owner", "test-repo");
     github_context_payload := pr |}.

(** What [core.getInput] throws for the required token when the workflow does
    not supply it. *)
Definition tokenNotSupplied : Response string :=
  inl (ErrorObj "Input required and not supplied: github_token").

(** A workflow step without [github_token], on an event that is not a pull
    request. *)
Definition noTokenNoPayload : Toolkit :=
  mockToolkit (inr false) (inr false) tokenNotSupplied (sharedOctokit (inr tt)) None.

(** Membership of a concrete event in a concrete trace, by computation. *)
Ltac in_trace := refine (bool_decide_unpack _ _); vm_compute; exact I.

(** * Properties of the detector *)

Section Detector.

Implicit Types A B : list FileChange.
Implicit Types f : FileChange.

Lemma elem_of_currentModifiedFiles A x :
  x ∈ currentModifiedFiles A ↔ ∃ f, f ∈ A ∧ filename f = x ∧ modifiedOrRemoved f.
Proof.
  unfold currentModifiedFiles.
  rewrite elem_of_list_to_set, list_elem_of_fmap.
  split.
  - intros (f & -> & Hf). apply list_elem_of_filter in Hf as [Hs Hin]. eauto.
  - intros (f & Hin & <- & Hs). exists f. split; [done|].
    by apply list_elem_of_filter.
Qed.

Lemma findConflictingFiles_nil_r A : findConflictingFiles A [] = [].
Proof. reflexivity. Qed.

Lemma findConflictingFiles_cons A f B :
  findConflictingFiles A (f :: B) =
    if decide (modifiedOrRemoved f ∧ filename f ∈ currentModifiedFiles A)
    then filename f :: findConflictingFiles A B
    else findConflictingFiles A B.
Proof.
  unfold findConflictingFiles. cbn zeta. rewrite filter_cons.
  by destruct (decide _).
Qed.

Lemma findConflictingFiles_app A B B' :
  findConflictingFiles A (B ++ B') =
    findConflictingFiles A B ++ findConflictingFiles A B'.
Proof.
  unfold findConflictingFiles. cbn zeta. by rewrite filter_app, fmap_app.
Qed.

Lemma elem_of_findConflictingFiles A B x :
  x ∈ findConflictingFiles A B ↔
    ∃ f, f ∈ B ∧ filename f = x ∧ modifiedOrRemoved f ∧ x ∈ currentModifiedFiles A.
Proof.
  unfold findConflictingFiles. cbn zeta. rewrite list_elem_of_fmap. split.
  - intros (f & -> & Hf). apply list_elem_of_filter in Hf as [[Hs Hc] Hin]. eauto.
  - intros (f & Hin & <- & Hs & Hc). exists f. split; [done|].
    by apply list_elem_of_filter.
Qed.

(** The detector reads the current list only through its set. *)
Lemma findConflictingFiles_ext A A' B :
  currentModifiedFiles A = currentModifiedFiles A' →
  findConflictingFiles A B = findConflictingFiles A' B.
Proof. unfold findConflictingFiles. cbn zeta. by intros ->. Qed.

(** C1: the result is a subsequence of the candidate's filenames; every
    filename in it is modified or removed on both sides; it is empty when
    either list is empty or when the two sides share no modified-or-removed
    filename. *)
Theorem findConflictingFiles_sound A B :
  findConflictingFiles A B `sublist_of` (filename <$> B)
  ∧ (∀ x, x ∈ findConflictingFiles A B →
       (∃ a, a ∈ A ∧ filename a = x ∧ modifiedOrRemoved a)
       ∧ (∃ b, b ∈ B ∧ filename b = x ∧ modifiedOrRemoved b))
  ∧ (A = [] → findConflictingFiles A B = [])
  ∧ (B = [] → findConflictingFiles A B = [])
  ∧ ((∀ a b, a ∈ A → b ∈ B → modifiedOrRemoved a → modifiedOrRemoved b →
             filename a ≠ filename b) →
     findConflictingFiles A B = []).
Proof.
  assert (Hmem : ∀ x, x ∈ findConflictingFiles A B →
       (∃ a, a ∈ A ∧ filename a = x ∧ modifiedOrRemoved a)
       ∧ (∃ b, b ∈ B ∧ filename b = x ∧ modifiedOrRemoved b)).
  { intros x (b & Hb & Hx & Hs & Hc)%elem_of_findConflictingFiles.
    apply elem_of_currentModifiedFiles in Hc. split; [done|eauto]. }
  split; [|split; [exact Hmem|]].
  - unfold findConflictingFiles. cbn zeta.
    apply fmap_sublist, sublist_filter.
  - assert (Hempty : (∀ x, x ∉ findConflictingFiles A B) →
                     findConflictingFiles A B = []).
    { destruct (findConflictingFiles A B) as [|x l]; [done|].
      intros H. destruct (H x). left. }
    repeat split.
    + intros ->. apply Hempty. intros x [(a & Ha & _) _]%Hmem.
      by apply elem_of_nil in Ha.
    + by intros ->.
    + intros Hdisj. apply Hempty.
      intros x [(a & Ha & Hax & Hsa) (b & Hb & Hbx & Hsb)]%Hmem.
      apply (Hdisj a b); congruence.
Qed.

Lemma findConflictingFiles_sound_witness :
  findConflictingFiles
    [mkFileChange "file1.ts" modified; mkFileChange "file2.ts" added]
    [mkFileChange "file3.ts" modified; mkFileChange "file2.ts" modified]
  = [].
Proof.
  apply (findConflictingFiles_sound
    [mkFileChange "file1.ts" modified; mkFileChange "file2.ts" added]
    [mkFileChange "file3.ts" modified; mkFileChange "file2.ts" modified]).
  intros a b Ha Hb Hsa Hsb.
  repeat (apply elem_of_cons in Ha as [->|Ha]);
    [| |by apply elem_of_nil in Ha];
    repeat (apply elem_of_cons in Hb as [->|Hb]);
    try (by apply elem_of_nil in Hb);
    try discriminate; destruct Hsa; discriminate.
Defined.

(** C2: the result keeps the candidate's order and its repetitions: over a
    concatenation it is the concatenation of the results, and two entries of
    the candidate list with the same conflicting filename both show up, each
    at the place of its entry. *)
Theorem findConflictingFiles_stable_no_dedup A B1 B2 B3 e1 e2 :
  modifiedOrRemoved e1 → modifiedOrRemoved e2 →
  filename e1 = filename e2 →
  filename e1 ∈ currentModifiedFiles A →
  findConflictingFiles A (B1 ++ e1 :: B2 ++ e2 :: B3) =
    findConflictingFiles A B1 ++ filename e1 ::
    findConflictingFiles A B2 ++ filename e1 ::
    findConflictingFiles A B3.
Proof.
  intros Hs1 Hs2 Heq Hin.
  rewrite findConflictingFiles_app, findConflictingFiles_cons.
  rewrite decide_True by done.
  rewrite findConflictingFiles_app, findConflictingFiles_cons.
  rewrite decide_True by (split; [done|by rewrite <- Heq]).
  by rewrite Heq.
Qed.

Lemma findConflictingFiles_stable_no_dedup_witness :
  findConflictingFiles
    [mkFileChange "b.ts" removed; mkFileChange "a.ts" modified]
    ([mkFileChange "a.ts" modified] ++ mkFileChange "b.ts" modified ::
       [mkFileChange "c.ts" modified; mkFileChange "a.ts" removed] ++
       mkFileChange "b.ts" removed :: [mkFileChange "a.ts" added])
  = ["a.ts"; "b.ts"; "a.ts"; "b.ts"].
Proof.
  rewrite (findConflictingFiles_stable_no_dedup
             [mkFileChange "b.ts" removed; mkFileChange "a.ts" modified]).
  - vm_compute. reflexivity.
  - left. reflexivity.
  - right. reflexivity.
  - reflexivity.
  - vm_compute. reflexivity.
Defined.

End Detector.

(** C9: the detector reads the current list only through the set of its
    modified-or-removed filenames: two current lists with the same such
    filenames give the same result against every candidate list. *)
Theorem findConflictingFiles_current_set (A A' B : list FileChange) :
  (∀ x, (∃ a, a ∈ A ∧ filename a = x ∧ modifiedOrRemoved a) ↔
        (∃ a, a ∈ A' ∧ filename a = x ∧ modifiedOrRemoved a)) →
  findConflictingFiles A B = findConflictingFiles A' B.
Proof.
  intros Hset. apply findConflictingFiles_ext.
  apply set_eq. intros x. rewrite !elem_of_currentModifiedFiles. apply Hset.
Qed.

Lemma findConflictingFiles_current_set_witness :
  findConflictingFiles
    [mkFileChange "a.ts" modified; mkFileChange "b.ts" added]
    [mkFileChange "a.ts" removed; mkFileChange "b.ts" modified]
  = findConflictingFiles
    [mkFileChange "c.ts" renamed; mkFileChange "a.ts" removed;
     mkFileChange "a.ts" modified]
    [mkFileChange "a.ts" removed; mkFileChange "b.ts" modified].
Proof.
  apply findConflictingFiles_current_set.
  intros x. rewrite <- !elem_of_currentModifiedFiles.
  assert (E : currentModifiedFiles
                [mkFileChange "a.ts" modified; mkFileChange "b.ts" added]
              = currentModifiedFiles
                [mkFileChange "c.ts" renamed; mkFileChange "a.ts" removed;
                 mkFileChange "a.ts" modified]).
  { unfold currentModifiedFiles. cbn. set_solver. }
  by rewrite E.
Defined.

(** Three special cases: a permuted current list, a repeated entry, an entry
    of another status. *)
Lemma currentModifiedFiles_perm (A A' : list FileChange) :
  A ≡ₚ A' → currentModifiedFiles A = currentModifiedFiles A'.
Proof.
  intros HP. apply set_eq. intros x. rewrite !elem_of_currentModifiedFiles.
  by setoid_rewrite HP.
Qed.

Lemma findConflictingFiles_perm (A A' B : list FileChange) :
  A ≡ₚ A' → findConflictingFiles A B = findConflictingFiles A' B.
Proof. intros HP. by apply findConflictingFiles_ext, currentModifiedFiles_perm. Qed.

Lemma findConflictingFiles_duplicate (A1 A2 B : list FileChange) (f : FileChange) :
  f ∈ A1 ++ A2 →
  findConflictingFiles (A1 ++ f :: A2) B = findConflictingFiles (A1 ++ A2) B.
Proof.
  intros Hin. apply findConflictingFiles_ext, set_eq. intros x.
  rewrite !elem_of_currentModifiedFiles. split.
  - intros (a & Ha & Hx & Hs). exists a. split; [|done].
    rewrite elem_of_app, elem_of_cons in Ha. rewrite elem_of_app.
    destruct Ha as [?|[->|?]]; auto. by apply elem_of_app.
  - intros (a & Ha & Hx & Hs). exists a. split; [|done].
    rewrite elem_of_app, elem_of_cons. rewrite elem_of_app in Ha. tauto.
Qed.

Lemma findConflictingFiles_other_status (A1 A2 B : list FileChange) (f : FileChange) :
  ¬ modifiedOrRemoved f →
  findConflictingFiles (A1 ++ f :: A2) B = findConflictingFiles (A1 ++ A2) B.
Proof.
  intros Hf. apply findConflictingFiles_ext. unfold currentModifiedFiles.
  by rewrite !filter_app, filter_cons_False.
Qed.

(** * Properties of the monad *)

Lemma bind_Ok {A B} (tr : list Event) (a : A) (k : A → M B) :
  bind (tr, Ok a) k = (tr ++ (k a).1, (k a).2).
Proof. unfold bind. by destruct (k a). Qed.

Lemma bind_Throw {A B} (tr : list Event) (t : Thrown) (k : A → M B) :
  bind (tr, Throw t) k = (tr, Throw t).
Proof. reflexivity. Qed.

Lemma bind_Diverge {A B} (tr : list Event) (k : A → M B) :
  bind (tr, Diverge) k = (tr, Diverge).
Proof. reflexivity. Qed.

Lemma bind_emit {B} (e : Event) (k : unit → M B) :
  bind (emit e) k = (e :: (k tt).1, (k tt).2).
Proof. unfold emit. by rewrite bind_Ok. Qed.

Lemma bind_trace_prefix {A B} (m : M A) (k : A → M B) :
  m.1 `prefix_of` (bind m k).1.
Proof.
  destruct m as [tr [a| |]]; [|done..].
  rewrite bind_Ok. by apply prefix_app_r.
Qed.

(** * The file fetcher *)

Section Fetcher.

Variable repoInfo : RepositoryInfo.
Variable prNumber : Z.

Local Abbreviation request page := (listFilesParams repoInfo prNumber page).
Local Abbreviation upstream page :=
  (pulls_listFiles (octokit repoInfo) (request page)).

Lemma getPRFiles_loop_step fuel files page :
  getPRFiles_loop (S fuel) repoInfo prNumber files page =
    match upstream page with
    | inl t => ([req_listFiles (request page)], Throw t)
    | inr data =>
        if length data <? perPage
        then ([req_listFiles (request page)], Ok (files ++ (toFileChange <$> data)))
        else let rest := getPRFiles_loop fuel repoInfo prNumber
                           (files ++ (toFileChange <$> data)) (page + 1) in
             (req_listFiles (request page) :: rest.1, rest.2)
    end.
Proof.
  cbn [getPRFiles_loop]. unfold await.
  destruct (pulls_listFiles _ _) as [t|data]; [done|].
  rewrite bind_Ok. by destruct (length data <? perPage).
Qed.

(** The loop walks through the full pages and stops at the first short one;
    a page counts as full when it is not shorter than [perPage]. *)
Lemma getPRFiles_loop_pages (pages : list (list ApiFile)) (lastPage : list ApiFile) :
  ∀ fuel files page,
    (∀ data, data ∈ pages → perPage ≤ length data) →
    length lastPage < perPage →
    (∀ i data, (pages ++ [lastPage]) !! i = Some data →
               upstream (page + i) = inr data) →
    length pages < fuel →
    getPRFiles_loop fuel repoInfo prNumber files page =
      ((λ page, req_listFiles (request page)) <$> seq page (S (length pages)),
       Ok (files ++ (toFileChange <$> concat (pages ++ [lastPage])))).
Proof.
  induction pages as [|data pages IH]; intros fuel files page Hfull Hshort Hup Hfuel;
    (destruct fuel as [|fuel]; [lia|]); rewrite getPRFiles_loop_step.
  - rewrite <- (Nat.add_0_r page) at 1. rewrite (Hup 0 lastPage eq_refl).
    apply Nat.ltb_lt in Hshort. rewrite Hshort. cbn. by rewrite app_nil_r.
  - rewrite <- (Nat.add_0_r page) at 1. rewrite (Hup 0 data eq_refl).
    assert ((length data <? perPage) = false) as ->.
    { apply Nat.ltb_ge, Hfull. left. }
    rewrite (IH fuel _ (page + 1)); cbn [length] in *; try done; try lia.
    + cbn. rewrite Nat.add_1_r, fmap_app, app_assoc. done.
    + intros d Hd. apply Hfull. by right.
    + intros i d Hi. rewrite <- Nat.add_assoc. apply (Hup (S i)). done.
Qed.

(** An upstream that only ever sends full pages keeps the loop going for as
    long as there is fuel. *)
Lemma getPRFiles_loop_never_stops :
  (∀ page, ∃ data, upstream page = inr data ∧ perPage ≤ length data) →
  ∀ fuel files page,
    (getPRFiles_loop fuel repoInfo prNumber files page).2 = Diverge.
Proof.
  intros Hfull. induction fuel as [|fuel IH]; intros files page; [done|].
  rewrite getPRFiles_loop_step.
  destruct (Hfull page) as (data & -> & Hlen).
  apply Nat.ltb_ge in Hlen. rewrite Hlen. apply IH.
Qed.

End Fetcher.

(** C7: the fetcher asks for pages of [perPage] = 100 entries starting at
    page 1, asks for the next page as long as the page received holds 100
    entries, stops at the first page with fewer, and returns the pages
    concatenated in request order, duplicates included. *)
Theorem getPRFiles_pagination (repoInfo : RepositoryInfo) (prNumber : Z)
    (pages : list (list ApiFile)) (lastPage : list ApiFile) (fuel : nat) :
  (∀ data, data ∈ pages → length data = 100) →
  length lastPage < 100 →
  (∀ i data, (pages ++ [lastPage]) !! i = Some data →
     pulls_listFiles (octokit repoInfo)
       {| lf_owner := owner repoInfo; lf_repo := repo repoInfo;
          lf_pull_number := prNumber; lf_per_page := 100; lf_page := 1 + i |}
     = inr data) →
  length pages < fuel →
  getPRFiles fuel repoInfo prNumber =
    ((λ page, req_listFiles
                {| lf_owner := owner repoInfo; lf_repo := repo repoInfo;
                   lf_pull_number := prNumber; lf_per_page := 100;
                   lf_page := page |}) <$> seq 1 (S (length pages)),
     Ok (toFileChange <$> concat (pages ++ [lastPage]))).
Proof.
  intros Hfull Hshort Hup Hfuel. unfold getPRFiles.
  rewrite (getPRFiles_loop_pages repoInfo prNumber pages lastPage); try done.
  intros data Hd. rewrite (Hfull data Hd). done.
Qed.

Lemma getPRFiles_pagination_witness :
  getPRFiles 5 (testRepo (mockOctokit paginatedFiles (inr []) (inr tt))) 1 =
    ((λ page, req_listFiles
                {| lf_owner := "test-owner"; lf_repo := "test-repo";
                   lf_pull_number := 1; lf_per_page := 100; lf_page := page |})
       <$> [1; 2],
     Ok (toFileChange <$> (page1Files ++ page2Files))).
Proof.
  rewrite (getPRFiles_pagination _ 1 [page1Files] page2Files 5).
  - cbn [concat app]. by rewrite app_nil_r.
  - intros data ->%list_elem_of_singleton. vm_compute. reflexivity.
  - vm_compute. lia.
  - intros [|[|i]] data [= <-]; reflexivity.
  - cbn. lia.
Defined.

(** * Traces of the fetch phase *)

Section FetchPhase.

Variable repoInfo : RepositoryInfo.
Local Abbreviation oct := (octokit repoInfo).

Lemma fetchPhase_ret {A} (a : A) : fetchPhase oct (ret a).
Proof. split; cbn; constructor. Qed.

Lemma fetchPhase_diverge {A} : fetchPhase oct (@diverge A).
Proof. split; cbn; constructor. Qed.

Lemma fetchPhase_info msg : fetchPhase oct (emit (core_info msg)).
Proof. split; cbn; by repeat constructor. Qed.

Lemma fetchPhase_warning msg : fetchPhase oct (emit (core_warning msg)).
Proof. split; cbn; by repeat constructor. Qed.

Lemma fetchPhase_listFiles p :
  fetchPhase oct (await (req_listFiles p) (pulls_listFiles oct p)).
Proof.
  unfold await. destruct (pulls_listFiles oct p) as [t|data] eqn:E; split; cbn.
  - by repeat constructor.
  - exists [], (req_listFiles p). cbn. rewrite E. by repeat split; try constructor.
  - by repeat constructor.
  - repeat constructor. cbn. by rewrite E.
Qed.

Lemma fetchPhase_list p :
  fetchPhase oct (await (req_list p) (pulls_list oct p)).
Proof.
  unfold await. destruct (pulls_list oct p) as [t|data] eqn:E; split; cbn.
  - by repeat constructor.
  - exists [], (req_list p). cbn. rewrite E. by repeat split; try constructor.
  - by repeat constructor.
  - repeat constructor. cbn. by rewrite E.
Qed.

Lemma fetchPhase_bind {A B} (m : M A) (k : A → M B) :
  fetchPhase oct m → (∀ a, fetchPhase oct (k a)) → fetchPhase oct (bind m k).
Proof.
  destruct m as [tr [a|t|]]; intros [Hev Hm] Hk; [|done..].
  cbn in Hev, Hm. rewrite bind_Ok.
  destruct (Hk a) as [Hev' Hk']. destruct (k a) as [tr' r']. cbn in *.
  split; cbn; [by apply Forall_app|].
  destruct r' as [b|t|]; try by apply Forall_app.
  destruct Hk' as (tr'' & e & -> & Hq & He).
  exists (tr ++ tr''), e. rewrite app_assoc. repeat split; [|done].
  by apply Forall_app.
Qed.

Lemma fetchPhase_getPRFiles_loop fuel prNumber :
  ∀ files page, fetchPhase oct (getPRFiles_loop fuel repoInfo prNumber files page).
Proof.
  induction fuel as [|fuel IH]; intros files page; cbn [getPRFiles_loop].
  - apply fetchPhase_diverge.
  - apply fetchPhase_bind; [apply fetchPhase_listFiles|].
    intros data. destruct (_ <? _); [apply fetchPhase_ret|apply IH].
Qed.

Lemma fetchPhase_getPRFiles fuel prNumber :
  fetchPhase oct (getPRFiles fuel repoInfo prNumber).
Proof. apply fetchPhase_getPRFiles_loop. Qed.

Lemma fetchPhase_checkOpenPRs fuel currentNumber includeDrafts currentFiles prs :
  ∀ conflictWarnings,
    fetchPhase oct (checkOpenPRs fuel repoInfo currentNumber includeDrafts
                                 currentFiles prs conflictWarnings).
Proof.
  induction prs as [|pr prs IH]; intros acc; cbn [checkOpenPRs].
  - apply fetchPhase_ret.
  - destruct (_ =? _)%Z; [apply IH|].
    destruct (_ && _); [apply IH|].
    apply fetchPhase_bind; [apply fetchPhase_getPRFiles|]. intros files.
    destruct (0 <? _); [|apply IH].
    apply fetchPhase_bind; [apply fetchPhase_warning|]. intros _. apply IH.
Qed.

Lemma fetchPhase_collectConflicts fuel includeDrafts currentPR :
  fetchPhase oct (collectConflicts fuel includeDrafts repoInfo currentPR).
Proof.
  unfold collectConflicts.
  apply fetchPhase_bind; [apply fetchPhase_info|]. intros _.
  apply fetchPhase_bind; [apply fetchPhase_getPRFiles|]. intros files.
  apply fetchPhase_bind; [apply fetchPhase_info|]. intros _.
  apply fetchPhase_bind; [apply fetchPhase_list|]. intros prs.
  apply fetchPhase_checkOpenPRs.
Qed.

End FetchPhase.

Lemma fetchPhaseEvent_silent (tr : list Event) :
  Forall (λ e, fetchPhaseEvent e = true) tr →
  outputs tr = [] ∧ failures tr = [] ∧ summaries tr = [] ∧
  ∀ p, req_createComment p ∉ tr.
Proof.
  induction 1 as [|e tr He _ (IH1 & IH2 & IH3 & IH4)].
  - repeat split. intros p Hp. by apply elem_of_nil in Hp.
  - unfold outputs, failures, summaries in *.
    destruct e; try discriminate; cbn; repeat split; try done;
      intros q [Hq|Hq]%elem_of_cons; try discriminate; by apply (IH4 q).
Qed.

(** * The loop over the open PRs *)

Lemma bind_Ok_inv {A B} (m : M A) (k : A → M B) tr b :
  bind m k = (tr, Ok b) →
  ∃ tr1 a tr2, m = (tr1, Ok a) ∧ k a = (tr2, Ok b) ∧ tr = tr1 ++ tr2.
Proof.
  destruct m as [tr1 [a|t|]]; [|by cbn..].
  rewrite bind_Ok. destruct (k a) as [tr2 r] eqn:Hk. cbn. intros [= <- ->].
  by exists tr1, a, tr2.
Qed.

Section Loop.

Variable fuel : nat.
Variable repoInfo : RepositoryInfo.
Variable currentNumber : Z.
Variable currentFiles : list FileChange.

Local Abbreviation admissible := (admissibleRecord currentNumber).

Lemma checkOpenPRs_records includeDrafts prs :
  ∀ acc tr records,
    checkOpenPRs fuel repoInfo currentNumber includeDrafts currentFiles prs acc
      = (tr, Ok records) →
    ∃ new, records = acc ++ new ∧ Forall (admissible includeDrafts prs) new.
Proof.
  induction prs as [|pr prs IH]; intros acc tr records; cbn [checkOpenPRs].
  - intros [= _ <-]. exists []. by rewrite app_nil_r.
  - assert (Hweak : ∀ new, Forall (admissible includeDrafts prs) new →
                           Forall (admissible includeDrafts (pr :: prs)) new).
    { intros new Hnew. eapply Forall_impl; [exact Hnew|].
      intros r (pr' & Hin & H).
      exists pr'. split; [by right|done]. }
    destruct (number pr =? currentNumber)%Z eqn:Hnum.
    { intros (new & -> & Hnew)%IH. eauto. }
    destruct (truthy (draft pr) && negb includeDrafts) eqn:Hdraft.
    { intros (new & -> & Hnew)%IH. eauto. }
    intros (tr1 & files & tr2 & _ & Hrest & _)%bind_Ok_inv.
    destruct (0 <? _).
    + apply bind_Ok_inv in Hrest as (? & [] & tr3 & _ & Hrest & _).
      apply IH in Hrest as (new & -> & Hnew). rewrite <- app_assoc.
      eexists. split; [done|]. cbn. constructor; [|by apply Hweak].
      exists pr. cbn. repeat split; [left|by apply Z.eqb_neq|].
      intros -> Hd. by rewrite Hd in Hdraft.
    + apply IH in Hrest as (new & -> & Hnew). eauto.
Qed.

Lemma checkOpenPRs_mono prs :
  ∀ accT accF trT recordsT,
    accF `sublist_of` accT →
    checkOpenPRs fuel repoInfo currentNumber true currentFiles prs accT
      = (trT, Ok recordsT) →
    ∃ trF recordsF,
      checkOpenPRs fuel repoInfo currentNumber false currentFiles prs accF
        = (trF, Ok recordsF)
      ∧ recordsF `sublist_of` recordsT.
Proof.
  induction prs as [|pr prs IH]; intros accT accF trT recordsT Hsub;
    cbn [checkOpenPRs].
  - intros [= _ <-]. eauto.
  - destruct (number pr =? currentNumber)%Z; [by apply IH|].
    rewrite andb_false_r, andb_true_r.
    intros (tr1 & files & tr2 & Hfetch & Hrest & _)%bind_Ok_inv.
    destruct (truthy (draft pr)).
    + destruct (0 <? _).
      * apply bind_Ok_inv in Hrest as (? & [] & tr3 & _ & Hrest & _).
        eapply IH; [|done]. by apply sublist_inserts_r.
      * by eapply IH.
    + rewrite Hfetch, bind_Ok. destruct (0 <? _).
      * apply bind_Ok_inv in Hrest as (? & [] & tr3 & _ & Hrest & _).
        rewrite bind_emit.
        eapply (IH _ (accF ++ [_])) in Hrest as (trF & recordsF & -> & ?);
          [|by apply sublist_app].
        cbn. eauto.
      * eapply (IH _ accF) in Hrest as (trF & recordsF & -> & ?); [|done].
        cbn. eauto.
Qed.

End Loop.

(** C3: a run of the loop never yields a record for the current PR, nor for a
    draft while drafts are not included; and the records of a run with drafts
    included contain, unchanged and in order, those of the run without. *)
Theorem checkOpenPRs_skips_and_monotone (fuel : nat) (repoInfo : RepositoryInfo)
    (currentNumber : Z) (currentFiles : list FileChange) (prs : list PullRequest) :
  (∀ includeDrafts tr records,
     checkOpenPRs fuel repoInfo currentNumber includeDrafts currentFiles prs []
       = (tr, Ok records) →
     ∀ r, r ∈ records →
       prNumber r ≠ currentNumber ∧
       ∃ pr, pr ∈ prs ∧ prNumber r = number pr ∧ prTitle r = title pr ∧
             number pr ≠ currentNumber ∧
             (includeDrafts = false → draft pr ≠ Some true))
  ∧ (∀ trT recordsT,
       checkOpenPRs fuel repoInfo currentNumber true currentFiles prs []
         = (trT, Ok recordsT) →
       ∃ trF recordsF,
         checkOpenPRs fuel repoInfo currentNumber false currentFiles prs []
           = (trF, Ok recordsF)
         ∧ recordsF `sublist_of` recordsT).
Proof.
  split.
  - intros includeDrafts tr records Hrun r Hr.
    apply checkOpenPRs_records in Hrun as (new & -> & Hnew).
    eapply Forall_forall in Hnew; [|exact Hr].
    destruct Hnew as (pr & Hin & Hn & Ht & Hne & Hd).
    split; [congruence|eauto 7].
  - intros trT recordsT. by apply checkOpenPRs_mono.
Qed.

Lemma checkOpenPRs_skips_and_monotone_witness :
  let repoInfo := testRepo (sharedOctokit (inr tt)) in
  let current := [mkFileChange "shared.ts" modified] in
  let record2 := mkConflictWarning 2 "Draft PR" ["shared.ts"] in
  let record3 := mkConflictWarning 3 "Other PR" ["shared.ts"] in
  (prNumber record3 ≠ 1%Z ∧
   ∃ pr, pr ∈ draftPRs ∧ prNumber record3 = number pr ∧
         prTitle record3 = title pr ∧ number pr ≠ 1%Z ∧
         (false = false → draft pr ≠ Some true))
  ∧ ∃ trF recordsF,
      checkOpenPRs 5 repoInfo 1%Z false current draftPRs [] = (trF, Ok recordsF)
      ∧ recordsF `sublist_of` [record2; record3].
Proof.
  intros repoInfo current record2 record3. split.
  - apply (proj1 (checkOpenPRs_skips_and_monotone 5 repoInfo 1%Z current draftPRs)
             false
             (checkOpenPRs 5 repoInfo 1%Z false current draftPRs []).1
             [record3]).
    + vm_compute. reflexivity.
    + left.
  - apply (proj2 (checkOpenPRs_skips_and_monotone 5 repoInfo 1%Z current draftPRs)
             (checkOpenPRs 5 repoInfo 1%Z true current draftPRs []).1
             [record2; record3]).
    vm_compute. reflexivity.
Defined.

(** * The summary document *)

Lemma string_app_cons (ch : ascii) (a b : string) :
  String ch a +:+ b = String ch (a +:+ b).
Proof. reflexivity. Qed.

Lemma string_app_assoc (a b c : string) : (a +:+ b) +:+ c = a +:+ (b +:+ c).
Proof.
  induction a as [|ch a IH]; [done|]. by rewrite !string_app_cons, IH.
Qed.

Lemma string_app_nil_r (a : string) : a +:+ "" = a.
Proof.
  induction a as [|ch a IH]; [done|]. by rewrite string_app_cons, IH.
Qed.

Lemma foldl_append {X} (f : X → string) (l : list X) (acc : string) :
  foldl (λ summary x, summary +:+ f x) acc l = acc +:+ joinAll (f <$> l).
Proof.
  revert acc. induction l as [|x l IH]; intros acc.
  - cbn. by rewrite string_app_nil_r.
  - cbn [foldl]. rewrite IH, string_app_assoc. done.
Qed.

Lemma summaryBlock_step (summary : string) (warning : ConflictWarning) :
  (let summary := summary +:+
     ("### PR #" +:+ showZ (prNumber warning) +:+ ": " +:+ prTitle warning +:+ nl) in
   let summary := summary +:+
     ("**Overlapping files (" +:+ showNat (length (conflictingFiles warning))
        +:+ "):**" +:+ nl) in
   let summary :=
     foldl (λ summary file, summary +:+ ("- `" +:+ file +:+ "`" +:+ nl))
           summary (take 10 (conflictingFiles warning)) in
   let summary :=
     if 10 <? length (conflictingFiles warning)
     then summary +:+
          ("- ... and " +:+ showNat (length (conflictingFiles warning) - 10)
             +:+ " more" +:+ nl)
     else summary in
   summary +:+ nl)
  = summary +:+ summaryBlock warning.
Proof.
  cbn zeta. unfold summaryBlock.
  rewrite (foldl_append (λ file, "- `" +:+ file +:+ "`" +:+ nl)).
  fold bulletLine.
  assert (take (length (conflictingFiles warning) `min` 10) (conflictingFiles warning)
          = take 10 (conflictingFiles warning)) as ->.
  { destruct (Nat.le_ge_cases (length (conflictingFiles warning)) 10).
    - rewrite Nat.min_l by done. by rewrite !take_ge.
    - by rewrite Nat.min_r. }
  destruct (decide _) as [Hk|Hk].
  - apply Nat.ltb_lt in Hk. rewrite Hk. by rewrite !string_app_assoc.
  - apply Nat.ltb_nlt in Hk. rewrite Hk.
    by rewrite !string_app_assoc.
Qed.

Lemma generateSummary_document (warnings : list ConflictWarning) :
  generateSummary warnings = summaryDocument warnings.
Proof.
  unfold generateSummary, summaryDocument. cbn zeta.
  assert (H : ∀ acc, foldl (λ summary warning,
      let summary := summary +:+
        ("### PR #" +:+ showZ (prNumber warning) +:+ ": " +:+ prTitle warning +:+ nl) in
      let summary := summary +:+
        ("**Overlapping files (" +:+ showNat (length (conflictingFiles warning))
           +:+ "):**" +:+ nl) in
      let summary :=
        foldl (λ summary file, summary +:+ ("- `" +:+ file +:+ "`" +:+ nl))
              summary (take 10 (conflictingFiles warning)) in
      let summary :=
        if 10 <? length (conflictingFiles warning)
        then summary +:+
             ("- ... and " +:+ showNat (length (conflictingFiles warning) - 10)
                +:+ " more" +:+ nl)
        else summary in
      summary +:+ nl) acc warnings = acc +:+ joinAll (summaryBlock <$> warnings)).
  { induction warnings as [|w ws IH]; intros acc; cbn [foldl fmap list_fmap joinAll foldr].
    - by rewrite string_app_nil_r.
    - rewrite summaryBlock_step, IH. by rewrite string_app_assoc. }
  rewrite H. unfold summaryHeading, summaryNote. by rewrite !string_app_assoc.
Qed.

(** * The run as a whole *)

Section RunProperties.

Variable JSON_stringify : list ConflictWarning → string.

Lemma run_try_eq fuel env :
  run_try JSON_stringify fuel env =
    bind (emit (debugEvent env)) (λ _,
      match context_payload_pull_request env with
      | None => emit (core_setFailed triggerMessage)
      | Some currentPR =>
          bind (collectConflicts fuel (input_include_drafts env)
                                 (repoInfoOf env) currentPR)
               (report JSON_stringify (input_post_comments env)
                       (repoInfoOf env) currentPR)
      end).
Proof. unfold run_try, repoInfoOf. by destruct (context_repo env). Qed.

Lemma posting_eq repoInfo prNumber records :
  try_catch (postConflictComment repoInfo prNumber records) onPostError
  = (postingEvents repoInfo prNumber records, Ok tt).
Proof.
  unfold postConflictComment, postingEvents, commentParams, await. cbn zeta.
  destruct (issues_createComment _ _) as [[message|value]|[]]; cbn; try done.
  unfold permissionWarning. by destruct (includes _ _).
Qed.

Lemma report_eq postComments repoInfo currentPR records :
  report JSON_stringify postComments repoInfo currentPR records
  = (reportEvents JSON_stringify postComments repoInfo currentPR records, Ok tt).
Proof.
  unfold report, reportEvents. destruct (0 <? length records); [|done].
  rewrite !bind_emit. cbn [fst snd].
  destruct postComments.
  - rewrite posting_eq, bind_Ok. done.
  - done.
Qed.

(** The four ways a run can go once the payload names a pull request. *)
Lemma run_eq fuel env :
  run JSON_stringify fuel env =
    match context_payload_pull_request env with
    | None => ([debugEvent env; core_setFailed triggerMessage], Ok tt)
    | Some currentPR =>
        let collected := collectConflicts fuel (input_include_drafts env)
                                          (repoInfoOf env) currentPR in
        match collected.2 with
        | Ok records =>
            (debugEvent env :: collected.1 ++
               reportEvents JSON_stringify (input_post_comments env)
                            (repoInfoOf env) currentPR records,
             Ok tt)
        | Throw (ErrorObj message) =>
            (debugEvent env :: collected.1 ++ [core_setFailed message], Ok tt)
        | Throw (NonError _) => (debugEvent env :: collected.1, Ok tt)
        | Diverge => (debugEvent env :: collected.1, Diverge)
        end
    end.
Proof.
  unfold run. rewrite run_try_eq, bind_emit.
  destruct (context_payload_pull_request env) as [currentPR|]; [|done].
  cbn zeta.
  destruct (collectConflicts _ _ _ _) as [tr [records|[message|value]|]]; cbn.
  - rewrite report_eq. done.
  - done.
  - by rewrite app_nil_r.
  - done.
Qed.

Lemma postingEvents_silent repoInfo prNumber records :
  outputs (postingEvents repoInfo prNumber records) = [] ∧
  failures (postingEvents repoInfo prNumber records) = [] ∧
  summaries (postingEvents repoInfo prNumber records) = [] ∧
  ∀ oct, quiet oct (postingEvents repoInfo prNumber records).
Proof.
  unfold postingEvents. cbn zeta.
  destruct (issues_createComment _ _) as [[message|value]|[]];
    repeat split; try done; intros oct; by repeat constructor.
Qed.

Lemma reportEvents_outputs postComments repoInfo currentPR records :
  outputs (reportEvents JSON_stringify postComments repoInfo currentPR records)
  = if 0 <? length records then conflictOutputs JSON_stringify records
    else [("has-conflicts", OutString "false"); ("conflict-count", OutNumber 0)].
Proof.
  unfold reportEvents, outputs. destruct (0 <? length records); [|done].
  rewrite !omap_app. destruct postComments; [|done].
  destruct (postingEvents_silent repoInfo (payload_number currentPR) records)
    as (Ho & _). unfold outputs in Ho. by rewrite Ho.
Qed.

Lemma reportEvents_failures postComments repoInfo currentPR records :
  failures (reportEvents JSON_stringify postComments repoInfo currentPR records) = [].
Proof.
  unfold reportEvents, failures. destruct (0 <? length records); [|done].
  rewrite !omap_app. destruct postComments; [|done].
  destruct (postingEvents_silent repoInfo (payload_number currentPR) records)
    as (_ & Hf & _). unfold failures in Hf. by rewrite Hf.
Qed.

Lemma reportEvents_summaries postComments repoInfo currentPR records :
  summaries (reportEvents JSON_stringify postComments repoInfo currentPR records)
  = if 0 <? length records then [generateSummary records] else [].
Proof.
  unfold reportEvents, summaries. destruct (0 <? length records); [|done].
  rewrite !omap_app. destruct postComments; [|done].
  destruct (postingEvents_silent repoInfo (payload_number currentPR) records)
    as (_ & _ & Hs & _). unfold summaries in Hs. by rewrite Hs.
Qed.

Lemma reportEvents_quiet oct postComments repoInfo currentPR records :
  quiet oct (reportEvents JSON_stringify postComments repoInfo currentPR records).
Proof.
  unfold reportEvents, quiet. destruct (0 <? length records);
    [|by repeat constructor].
  rewrite !Forall_app. repeat split; try by repeat constructor.
  destruct postComments; [|constructor].
  by apply postingEvents_silent.
Qed.

Lemma outputs_app tr tr' : outputs (tr ++ tr') = outputs tr ++ outputs tr'.
Proof. apply omap_app. Qed.

Lemma failures_app tr tr' : failures (tr ++ tr') = failures tr ++ failures tr'.
Proof. apply omap_app. Qed.

Lemma summaries_app tr tr' : summaries (tr ++ tr') = summaries tr ++ summaries tr'.
Proof. apply omap_app. Qed.

End RunProperties.

Section RunClaims.

Variable JSON_stringify : list ConflictWarning → string.

Lemma quiet_not_rejected oct tr e t :
  quiet oct tr → e ∈ tr → rejection oct e = Some t → False.
Proof.
  intros Hq Hin He. eapply Forall_forall in Hq; [|exact Hin]. congruence.
Qed.

Lemma collectConflicts_silent fuel includeDrafts repoInfo currentPR :
  outputs (collectConflicts fuel includeDrafts repoInfo currentPR).1 = [] ∧
  failures (collectConflicts fuel includeDrafts repoInfo currentPR).1 = [] ∧
  summaries (collectConflicts fuel includeDrafts repoInfo currentPR).1 = [] ∧
  ∀ p, req_createComment p ∉ (collectConflicts fuel includeDrafts repoInfo currentPR).1.
Proof.
  apply fetchPhaseEvent_silent.
  apply (fetchPhase_collectConflicts repoInfo fuel includeDrafts currentPR).
Qed.

(** A run in which a fetch or listing request is rejected: the request is the
    last thing the run does before its [catch] clause. *)
Lemma run_rejected fuel env e t :
  e ∈ (run JSON_stringify fuel env).1 →
  rejection (getOctokit env (input_github_token env)) e = Some t →
  ∃ tr0,
    outputs tr0 = [] ∧ failures tr0 = [] ∧
    run JSON_stringify fuel env =
      (debugEvent env :: tr0 ++ [e] ++
         match t with ErrorObj message => [core_setFailed message] | NonError _ => [] end,
       Ok tt).
Proof.
  rewrite run_eq. intros Hin He.
  destruct (context_payload_pull_request env) as [currentPR|]; cbn zeta in *.
  2:{ cbn in Hin. repeat (apply elem_of_cons in Hin as [->|Hin]); try discriminate.
      by apply elem_of_nil in Hin. }
  pose proof (fetchPhase_collectConflicts (repoInfoOf env) fuel
                (input_include_drafts env) currentPR) as [Hev Hthrow].
  change (octokit (repoInfoOf env)) with (getOctokit env (input_github_token env))
    in Hthrow.
  destruct (collectConflicts _ _ _ _) as [tr [records|t'|]]; cbn [fst snd] in *.
  - apply elem_of_cons in Hin as [->|Hin]; [discriminate|].
    apply elem_of_app in Hin as [Hin|Hin].
    + destruct (quiet_not_rejected _ _ _ _ Hthrow Hin He).
    + exfalso.
      eapply quiet_not_rejected; [apply reportEvents_quiet|exact Hin|exact He].
  - destruct Hthrow as (tr0 & e' & -> & Hq & He').
    assert (e = e') as <-.
    { destruct t' as [m|v]; cbn [fst] in Hin;
        apply elem_of_cons in Hin as [->|Hin]; try discriminate;
        rewrite ?elem_of_app in Hin;
        repeat match goal with
          | H : _ ∨ _ |- _ => destruct H as [H|H]
          | H : _ ∈ [_] |- _ => apply list_elem_of_singleton in H; subst
          end; try done; try discriminate;
        destruct (quiet_not_rejected _ _ _ _ Hq Hin He). }
    assert (t' = t) as -> by congruence.
    apply Forall_app in Hev as [Hev _].
    apply fetchPhaseEvent_silent in Hev as (Ho & Hf & _).
    exists tr0. repeat split; try done.
    destruct t; cbn; [by rewrite <- app_assoc|done].
  - apply elem_of_cons in Hin as [->|Hin]; [discriminate|].
    destruct (quiet_not_rejected _ _ _ _ Hthrow Hin He).
Qed.

(** A run in which the comment request is issued: the records were found,
    the outputs set and the summary written before it. *)
Lemma run_posting fuel env p :
  req_createComment p ∈ (run JSON_stringify fuel env).1 →
  ∃ currentPR tr0 records,
    context_payload_pull_request env = Some currentPR ∧
    collectConflicts fuel (input_include_drafts env) (repoInfoOf env) currentPR
      = (tr0, Ok records) ∧
    0 < length records ∧
    input_post_comments env = true ∧
    p = commentParams (repoInfoOf env) (payload_number currentPR) records ∧
    run JSON_stringify fuel env =
      ((debugEvent env :: tr0 ++
         [ core_setOutput "has-conflicts" (OutString "true");
           core_setOutput "conflict-count" (OutNumber (Z.of_nat (length records)));
           core_setOutput "conflicts" (OutString (JSON_stringify records));
           core_summary_write (generateSummary records) ]) ++
         postingEvents (repoInfoOf env) (payload_number currentPR) records ++
         [foundEvent records],
       Ok tt).
Proof.
  rewrite run_eq. intros Hin.
  destruct (context_payload_pull_request env) as [currentPR|]; cbn zeta in *.
  2:{ cbn in Hin. repeat (apply elem_of_cons in Hin as [?|Hin]); try discriminate.
      by apply elem_of_nil in Hin. }
  pose proof (collectConflicts_silent fuel (input_include_drafts env)
                (repoInfoOf env) currentPR) as (_ & _ & _ & Hno).
  destruct (collectConflicts _ _ _ _) as [tr [records|t'|]] eqn:Hc;
    cbn [fst snd] in *.
  - apply elem_of_cons in Hin as [?|Hin]; [discriminate|].
    apply elem_of_app in Hin as [Hin|Hin]; [by destruct (Hno p)|].
    unfold reportEvents in *. destruct (0 <? length records) eqn:Hlen.
    2:{ repeat (apply elem_of_cons in Hin as [?|Hin]); try discriminate.
        by apply elem_of_nil in Hin. }
    destruct (input_post_comments env).
    2:{ repeat (apply elem_of_cons in Hin as [?|Hin]); try discriminate.
        by apply elem_of_nil in Hin. }
    exists currentPR, tr, records. repeat split; try done.
    + by apply Nat.ltb_lt.
    + do 4 (apply elem_of_cons in Hin as [?|Hin]; [discriminate|]).
      apply elem_of_app in Hin as [Hin|Hin].
      * unfold postingEvents in Hin. cbn zeta in Hin.
        apply elem_of_cons in Hin as [[= ->]|Hin]; [done|].
        destruct (issues_createComment _ _) as [[m|v]|[]];
          repeat (apply elem_of_cons in Hin as [?|Hin]); try discriminate;
          by apply elem_of_nil in Hin.
      * apply list_elem_of_singleton in Hin. discriminate.
    + cbn. by rewrite <- !app_assoc.
  - destruct t'; cbn [fst] in Hin;
      apply elem_of_cons in Hin as [?|Hin]; try discriminate;
      rewrite ?elem_of_app in Hin;
      repeat match goal with
        | H : _ ∨ _ |- _ => destruct H as [H|H]
        | H : _ ∈ [_] |- _ => apply list_elem_of_singleton in H; try discriminate
        end; by destruct (Hno p).
  - apply elem_of_cons in Hin as [?|Hin]; [discriminate|]. by destruct (Hno p).
Qed.

End RunClaims.

(** * [includes] is substring search *)

Lemma prefix_spec (sub s : string) :
  String.prefix sub s = true ↔ ∃ b, s = sub +:+ b.
Proof.
  revert s. induction sub as [|c sub IH]; intros s.
  - split; [|by destruct s]. intros _. by exists s.
  - destruct s as [|c' s]; cbn [String.prefix].
    + split; [done|]. by intros (b & Hb).
    + destruct (ascii_dec c c') as [->|Hne].
      * rewrite IH. split; intros (b & Hb); exists b.
        -- by rewrite string_app_cons, <- Hb.
        -- rewrite string_app_cons in Hb. by injection Hb.
      * split; [done|]. intros (b & Hb). rewrite string_app_cons in Hb.
        injection Hb as -> _. done.
Qed.

Lemma includes_spec (s sub : string) :
  includes s sub = true ↔ ∃ a b, s = a +:+ sub +:+ b.
Proof.
  induction s as [|c s IH]; cbn [includes]; rewrite orb_true_iff, prefix_spec.
  - split.
    + intros [(b & Hb)|?]; [|done]. by exists "", b.
    + intros ([|c a] & b & Hab); [|done]. left. by exists b.
  - rewrite IH. split.
    + intros [(b & Hb)|(a & b & Hab)]; [by exists "", b|].
      exists (String c a), b. by rewrite string_app_cons, <- Hab.
    + intros ([|c' a] & b & Hab); [left; by exists b|].
      right. rewrite string_app_cons in Hab. injection Hab as -> ->. eauto.
Qed.

(** * What a run reports *)

Section RunTheorems.

Variable JSON_stringify : list ConflictWarning → string.

Lemma run_completed fuel env currentPR tr0 records :
  context_payload_pull_request env = Some currentPR →
  collectConflicts fuel (input_include_drafts env) (repoInfoOf env) currentPR
    = (tr0, Ok records) →
  run JSON_stringify fuel env =
    (debugEvent env :: tr0 ++
       reportEvents JSON_stringify (input_post_comments env) (repoInfoOf env)
                    currentPR records,
     Ok tt)
  ∧ outputs tr0 = [] ∧ failures tr0 = [] ∧ summaries tr0 = [].
Proof.
  intros Hp Hc. rewrite run_eq, Hp. cbn zeta. rewrite Hc. split; [done|].
  pose proof (collectConflicts_silent fuel (input_include_drafts env)
                (repoInfoOf env) currentPR) as (Ho & Hf & Hs & _).
  rewrite Hc in Ho, Hf, Hs. done.
Qed.

(** C4: in a run that gets as far as reporting, [has-conflicts] is "true"
    exactly when the records are not empty (and "false" otherwise),
    [conflict-count] is the number of records, and [conflicts] is set, to the
    serialised records, exactly when there is at least one. *)
Theorem run_outputs_consistent fuel env currentPR tr0 records :
  context_payload_pull_request env = Some currentPR →
  collectConflicts fuel (input_include_drafts env) (repoInfoOf env) currentPR
    = (tr0, Ok records) →
  (run JSON_stringify fuel env).2 = Ok tt
  ∧ failures (run JSON_stringify fuel env).1 = []
  ∧ getOutput "conflict-count" (run JSON_stringify fuel env).1
      = Some (OutNumber (Z.of_nat (length records)))
  ∧ (getOutput "has-conflicts" (run JSON_stringify fuel env).1
       = Some (OutString "true") ↔ 0 < length records)
  ∧ (getOutput "has-conflicts" (run JSON_stringify fuel env).1
       = Some (OutString "false") ↔ length records = 0)
  ∧ (is_Some (getOutput "conflicts" (run JSON_stringify fuel env).1)
       ↔ 0 < length records)
  ∧ (0 < length records →
     getOutput "conflicts" (run JSON_stringify fuel env).1
       = Some (OutString (JSON_stringify records))).
Proof.
  intros Hp Hc.
  destruct (run_completed fuel env currentPR tr0 records Hp Hc)
    as (-> & Ho & Hf & _).
  cbn [fst snd]. unfold getOutput.
  change (debugEvent env :: ?l) with ([debugEvent env] ++ l).
  rewrite !outputs_app, !failures_app, Ho, Hf, reportEvents_outputs,
    reportEvents_failures.
  destruct (0 <? length records) eqn:Hlen.
  - apply Nat.ltb_lt in Hlen. cbn.
    repeat split; try done; try lia; try (intros _; by eexists).
  - apply Nat.ltb_ge in Hlen. assert (length records = 0) as -> by lia.
    cbn. repeat split; try done; try lia; try (by intros [? ?]).
Qed.

(** Once the inputs are read: without a pull request in the payload the run
    fails at once with the fixed message; and when a file or PR listing
    request is rejected with an [Error], the run ends failed with that
    error's message and nothing else after the request.  Either way no
    output is set. *)
Lemma run_fails_without_outputs fuel env :
  (context_payload_pull_request env = None →
     run JSON_stringify fuel env =
       ([debugEvent env;
         core_setFailed "This action must be triggered by a pull_request event"],
        Ok tt)
     ∧ outputs (run JSON_stringify fuel env).1 = [])
  ∧ (∀ e message,
       e ∈ (run JSON_stringify fuel env).1 →
       rejection (getOctokit env (input_github_token env)) e
         = Some (ErrorObj message) →
       (run JSON_stringify fuel env).2 = Ok tt
       ∧ (∃ before, (run JSON_stringify fuel env).1
                      = before ++ [e; core_setFailed message])
       ∧ failures (run JSON_stringify fuel env).1 = [message]
       ∧ outputs (run JSON_stringify fuel env).1 = []).
Proof.
  split.
  - intros Hp. rewrite run_eq, Hp. done.
  - intros e message Hin He.
    destruct (run_rejected JSON_stringify fuel env e _ Hin He)
      as (tr0 & Ho & Hf & ->).
    cbn [fst snd]. repeat split.
    + exists (debugEvent env :: tr0). done.
    + change (debugEvent env :: ?l) with ([debugEvent env] ++ l).
      rewrite !failures_app, Hf. destruct e; try discriminate; done.
    + change (debugEvent env :: ?l) with ([debugEvent env] ++ l).
      rewrite !outputs_app, Ho. destruct e; try discriminate; done.
Qed.

(** C6: when the comment request is rejected with an [Error], the run warns
    (about the "pull-requests: write" permission if the message says the
    resource is not accessible, with the message itself otherwise), goes on
    to its last line and ends without failure; the three outputs set before
    the request stay as they were. *)
Theorem posting_error_is_a_warning fuel env p message :
  req_createComment p ∈ (run JSON_stringify fuel env).1 →
  issues_createComment (getOctokit env (input_github_token env)) p
    = inl (ErrorObj message) →
  ∃ before records,
    run JSON_stringify fuel env =
      (before ++
         [ req_createComment p;
           core_warning
             (if includes message "Resource not accessible by integration"
              then "Insufficient permissions to post comment. Add " +:+ dquote
                     +:+ "pull-requests: write" +:+ dquote +:+ " permission."
              else "Failed to post comment: " +:+ message);
           core_info ("Found " +:+ showNat (length records)
                        +:+ " PRs with potential conflicts") ],
       Ok tt)
    ∧ 0 < length records
    ∧ failures (run JSON_stringify fuel env).1 = []
    ∧ outputs before = conflictOutputs JSON_stringify records
    ∧ outputs (run JSON_stringify fuel env).1 = conflictOutputs JSON_stringify records.
Proof.
  intros Hin Hrej.
  destruct (run_posting JSON_stringify fuel env p Hin)
    as (currentPR & tr0 & records & Hp & Hc & Hlen & Hpost & -> & Hrun).
  pose proof (collectConflicts_silent fuel (input_include_drafts env)
                (repoInfoOf env) currentPR) as (Ho & Hf & _).
  rewrite Hc in Ho, Hf. cbn [fst] in Ho, Hf.
  rewrite Hrun. unfold postingEvents. cbn zeta.
  change (octokit (repoInfoOf env)) with (getOctokit env (input_github_token env)).
  rewrite Hrej. eexists _, records. split; [reflexivity|]. cbn [fst].
  change (debugEvent env :: ?l) with ([debugEvent env] ++ l).
  rewrite !failures_app, !outputs_app, Ho, Hf. done.
Qed.

(** C8: the summary is written exactly in the runs that find at least one
    record, once, and it is the document of the specification: the heading,
    then for each record its number and title, the count of overlapping
    files, a bullet for each of the first ten files in the detector's order
    and the "... and k-10 more" line when there are more than ten, and the
    closing note. *)
Theorem summary_written_iff_conflicts fuel env :
  (∀ records, generateSummary records = summaryDocument records)
  ∧ summaries (run JSON_stringify fuel env).1 =
      match context_payload_pull_request env with
      | None => []
      | Some currentPR =>
          match (collectConflicts fuel (input_include_drafts env)
                                  (repoInfoOf env) currentPR).2 with
          | Ok records =>
              if 0 <? length records then [summaryDocument records] else []
          | _ => []
          end
      end.
Proof.
  split; [apply generateSummary_document|].
  rewrite run_eq.
  destruct (context_payload_pull_request env) as [currentPR|]; [|done].
  cbn zeta.
  pose proof (collectConflicts_silent fuel (input_include_drafts env)
                (repoInfoOf env) currentPR) as (_ & _ & Hs & _).
  destruct (collectConflicts _ _ _ _) as [tr [records|[message|value]|]];
    cbn [fst snd] in *;
    change (debugEvent env :: ?l) with ([debugEvent env] ++ l);
    rewrite ?summaries_app, Hs; try done.
  rewrite reportEvents_summaries, generateSummary_document. done.
Qed.

(** C10: a thrown value that is not an [Error] is dropped by both [catch]
    clauses.  Thrown by a file or PR listing request, it ends the run right
    there, not failed and with nothing reported; thrown by the comment
    request, the run goes on to its last line with no warning about it. *)
Theorem non_error_is_dropped fuel env :
  (∀ e value,
     e ∈ (run JSON_stringify fuel env).1 →
     rejection (getOctokit env (input_github_token env)) e
       = Some (NonError value) →
     (run JSON_stringify fuel env).2 = Ok tt
     ∧ last (run JSON_stringify fuel env).1 = Some e
     ∧ failures (run JSON_stringify fuel env).1 = []
     ∧ outputs (run JSON_stringify fuel env).1 = [])
  ∧ (∀ p value,
       req_createComment p ∈ (run JSON_stringify fuel env).1 →
       issues_createComment (getOctokit env (input_github_token env)) p
         = inl (NonError value) →
       ∃ before (records : list ConflictWarning),
         run JSON_stringify fuel env =
           (before ++
              [ req_createComment p;
                core_info ("Found " +:+ showNat (length records)
                             +:+ " PRs with potential conflicts") ],
            Ok tt)
         ∧ failures (run JSON_stringify fuel env).1 = []).
Proof.
  split.
  - intros e value Hin He.
    destruct (run_rejected JSON_stringify fuel env e _ Hin He)
      as (tr0 & Ho & Hf & ->).
    cbn [fst snd]. repeat split.
    + rewrite app_nil_r. change (debugEvent env :: ?l) with ([debugEvent env] ++ l).
      by rewrite app_assoc, last_snoc.
    + change (debugEvent env :: ?l) with ([debugEvent env] ++ l).
      rewrite !failures_app, Hf. destruct e; try discriminate; done.
    + change (debugEvent env :: ?l) with ([debugEvent env] ++ l).
      rewrite !outputs_app, Ho. destruct e; try discriminate; done.
  - intros p value Hin Hrej.
    destruct (run_posting JSON_stringify fuel env p Hin)
      as (currentPR & tr0 & records & Hp & Hc & Hlen & Hpost & -> & Hrun).
    pose proof (collectConflicts_silent fuel (input_include_drafts env)
                  (repoInfoOf env) currentPR) as (_ & Hf & _).
    rewrite Hc in Hf. cbn [fst] in Hf.
    rewrite Hrun. unfold postingEvents. cbn zeta.
    change (octokit (repoInfoOf env)) with (getOctokit env (input_github_token env)).
    rewrite Hrej. eexists _, records. split; [reflexivity|]. cbn [fst].
    change (debugEvent env :: ?l) with ([debugEvent env] ++ l).
    rewrite !failures_app, Hf. done.
Qed.

End RunTheorems.

(** * More fuel changes nothing once a computation has returned or thrown *)

Lemma stable_refl {A} (m : M A) : stable m m.
Proof. by intros _. Qed.

Lemma stable_bind {A B} (m m' : M A) (k k' : A → M B) :
  stable m m' → (∀ a, stable (k a) (k' a)) → stable (bind m k) (bind m' k').
Proof.
  intros Hm Hk Hnd. destruct m as [tr [a|t|]]; [| |done].
  - rewrite Hm by done. rewrite bind_Ok in Hnd. rewrite !bind_Ok.
    by rewrite (Hk a Hnd).
  - by rewrite Hm.
Qed.

Lemma stable_try_catch {A} (m m' : M A) (handler : Thrown → M A) :
  stable m m' → stable (try_catch m handler) (try_catch m' handler).
Proof.
  intros Hm Hnd. destruct m as [tr [a|t|]]; [| |done]; by rewrite Hm.
Qed.

Section Fuel.

Variables fuel fuel' : nat.
Hypothesis more : fuel ≤ fuel'.
Variable repoInfo : RepositoryInfo.

Lemma stable_getPRFiles_loop prNumber files page :
  stable (getPRFiles_loop fuel repoInfo prNumber files page)
         (getPRFiles_loop fuel' repoInfo prNumber files page).
Proof.
  clear -more. revert fuel' more files page.
  induction fuel as [|n IH]; intros n' Hle files page; [by intros ?|].
  destruct n' as [|n']; [lia|]. cbn [getPRFiles_loop].
  apply stable_bind; [apply stable_refl|]. intros data.
  destruct (_ <? _); [apply stable_refl|]. apply IH. lia.
Qed.

Lemma stable_checkOpenPRs currentNumber includeDrafts currentFiles prs :
  ∀ acc,
    stable (checkOpenPRs fuel repoInfo currentNumber includeDrafts currentFiles prs acc)
           (checkOpenPRs fuel' repoInfo currentNumber includeDrafts currentFiles prs acc).
Proof.
  induction prs as [|pr prs IH]; intros acc; cbn [checkOpenPRs];
    [apply stable_refl|].
  destruct (_ =? _)%Z; [apply IH|]. destruct (_ && _); [apply IH|].
  apply stable_bind; [apply stable_getPRFiles_loop|]. intros files.
  destruct (0 <? _); [|apply IH].
  apply stable_bind; [apply stable_refl|]. intros _. apply IH.
Qed.

Lemma stable_collectConflicts includeDrafts currentPR :
  stable (collectConflicts fuel includeDrafts repoInfo currentPR)
         (collectConflicts fuel' includeDrafts repoInfo currentPR).
Proof.
  unfold collectConflicts.
  apply stable_bind; [apply stable_refl|]. intros _.
  apply stable_bind; [apply stable_getPRFiles_loop|]. intros files.
  apply stable_bind; [apply stable_refl|]. intros _.
  apply stable_bind; [apply stable_refl|]. intros prs.
  apply stable_checkOpenPRs.
Qed.

End Fuel.

(** A run that ends with some fuel ends the same way with any larger amount:
    its trace and result do not depend on the bound. *)
Lemma run_fuel_stable (JSON_stringify : list ConflictWarning → string)
    (fuel fuel' : nat) (env : Environment) :
  fuel ≤ fuel' →
  (run JSON_stringify fuel env).2 ≠ Diverge →
  run JSON_stringify fuel' env = run JSON_stringify fuel env.
Proof.
  intros Hle. unfold run. apply stable_try_catch. rewrite !run_try_eq.
  apply stable_bind; [apply stable_refl|]. intros _.
  destruct (context_payload_pull_request env) as [currentPR|];
    [|apply stable_refl].
  apply stable_bind; [by apply stable_collectConflicts|].
  intros records. apply stable_refl.
Qed.

(** * The run theorems on the test scenarios *)

Lemma run_outputs_consistent_witness :
  let env := mockEnv true false (sharedOctokit (inr tt))
                     (Some (mkPullRequestPayload 1)) in
  getOutput "conflict-count" (run sampleStringify 5 env).1 = Some (OutNumber 2).
Proof.
  intros env.
  apply (run_outputs_consistent sampleStringify 5 env (mkPullRequestPayload 1)
           (collectConflicts 5 true (repoInfoOf env) (mkPullRequestPayload 1)).1
           [mkConflictWarning 2 "Draft PR" ["shared.ts"];
            mkConflictWarning 3 "Other PR" ["shared.ts"]]).
  - reflexivity.
  - vm_compute. reflexivity.
Defined.

Lemma posting_error_is_a_warning_witness :
  let env := mockEnv false true
               (sharedOctokit (inl (ErrorObj "Resource not accessible by integration")))
               (Some (mkPullRequestPayload 1)) in
  let p := commentParams (repoInfoOf env) 1
             [mkConflictWarning 3 "Other PR" ["shared.ts"]] in
  ∃ before records,
    run sampleStringify 5 env =
      (before ++ [req_createComment p; core_warning permissionWarning;
                  foundEvent records], Ok tt)
    ∧ 0 < length records
    ∧ failures (run sampleStringify 5 env).1 = []
    ∧ outputs before = conflictOutputs sampleStringify records
    ∧ outputs (run sampleStringify 5 env).1 = conflictOutputs sampleStringify records.
Proof.
  intros env p.
  apply (posting_error_is_a_warning sampleStringify 5 env p
           "Resource not accessible by integration").
  - in_trace.
  - reflexivity.
Defined.

Lemma non_error_is_dropped_witness :
  let fetching := mockEnv false false
                    (mockOctokit rejectedWithString (inr draftPRs) (inr tt))
                    (Some (mkPullRequestPayload 1)) in
  let posting := mockEnv false true (sharedOctokit (inl (NonError "timeout")))
                         (Some (mkPullRequestPayload 1)) in
  let e := req_listFiles (listFilesParams (repoInfoOf fetching) 1 1) in
  let p := commentParams (repoInfoOf posting) 1
             [mkConflictWarning 3 "Other PR" ["shared.ts"]] in
  ((run sampleStringify 5 fetching).2 = Ok tt
   ∧ last (run sampleStringify 5 fetching).1 = Some e
   ∧ failures (run sampleStringify 5 fetching).1 = []
   ∧ outputs (run sampleStringify 5 fetching).1 = [])
  ∧ ∃ before (records : list ConflictWarning),
      run sampleStringify 5 posting =
        (before ++ [req_createComment p; foundEvent records], Ok tt)
      ∧ failures (run sampleStringify 5 posting).1 = [].
Proof.
  intros fetching posting e p. split.
  - apply (proj1 (non_error_is_dropped sampleStringify 5 fetching) e "timeout").
    + in_trace.
    + reflexivity.
  - apply (proj2 (non_error_is_dropped sampleStringify 5 posting) p "timeout").
    + in_trace.
    + reflexivity.
Defined.

(** Scenario B of the specification, and the summary of a record with twelve
    files. *)
Example detect_scenario_B :
  findConflictingFiles
    [mkFileChange "shared.ts" modified; mkFileChange "file2.ts" added]
    [mkFileChange "shared.ts" modified; mkFileChange "file4.ts" added]
  = ["shared.ts"].
Proof. vm_compute. reflexivity. Qed.

Example scenario_D_drafts_skipped :
  outputs (run sampleStringify 5
             (mockEnv false false (sharedOctokit (inr tt))
                      (Some (mkPullRequestPayload 1)))).1
  = conflictOutputs sampleStringify [mkConflictWarning 3 "Other PR" ["shared.ts"]].
Proof. vm_compute. reflexivity. Qed.

Example summary_of_twelve_files :
  summaryBlock
    (mkConflictWarning 7 "Refactor"
       ["a"; "b"; "c"; "d"; "e"; "f"; "g"; "h"; "i"; "j"; "k"; "l"])
  = "### PR #7: Refactor" +:+ nl +:+ "**Overlapping files (12):**" +:+ nl +:+
    "- `a`" +:+ nl +:+ "- `b`" +:+ nl +:+ "- `c`" +:+ nl +:+ "- `d`" +:+ nl +:+
    "- `e`" +:+ nl +:+ "- `f`" +:+ nl +:+ "- `g`" +:+ nl +:+ "- `h`" +:+ nl +:+
    "- `i`" +:+ nl +:+ "- `j`" +:+ nl +:+ "- ... and 2 more" +:+ nl +:+ nl.
Proof. vm_compute. reflexivity. Qed.

(** * Further properties of the detector *)

(** X1: which filenames are reported does not depend on which of the two
    lists is the current one: a filename is in the result exactly when it is
    in the result with the lists swapped. *)
Theorem findConflictingFiles_elem_sym (A B : list FileChange) (x : string) :
  x ∈ findConflictingFiles A B ↔ x ∈ findConflictingFiles B A.
Proof.
  rewrite !elem_of_findConflictingFiles.
  setoid_rewrite elem_of_currentModifiedFiles.
  split; intros (f & Hf & Hx & Hs & g & Hg & Hgx & Hgs); eauto 10.
Qed.

Lemma findConflictingFiles_covered (A B : list FileChange) :
  (∀ f, f ∈ B → modifiedOrRemoved f → filename f ∈ currentModifiedFiles A) →
  findConflictingFiles A B = filename <$> filter modifiedOrRemoved B.
Proof.
  induction B as [|f B IH]; intros Hcov; [done|].
  rewrite findConflictingFiles_cons, filter_cons, IH.
  - destruct (decide (modifiedOrRemoved f)) as [Hf|Hf].
    + rewrite decide_True; [done|]. split; [done|]. apply Hcov; [left|done].
    + rewrite decide_False; [done|]. by intros [? _].
  - intros g Hg. apply Hcov. by right.
Qed.

(** X2: a list checked against itself reports every one of its modified or
    removed files, which is why the loop has to skip the current PR. *)
Theorem findConflictingFiles_self (A : list FileChange) :
  findConflictingFiles A A = filename <$> filter modifiedOrRemoved A.
Proof.
  apply findConflictingFiles_covered. intros f Hin Hf.
  apply elem_of_currentModifiedFiles. eauto.
Qed.

(** X3: a current list with more entries never reports less: the result
    for a sublist of entries is a subsequence of the result for the whole. *)
Theorem findConflictingFiles_mono (A A' B : list FileChange) :
  A ⊆ A' →
  findConflictingFiles A B `sublist_of` findConflictingFiles A' B.
Proof.
  intros Hsub. induction B as [|f B IH]; [done|].
  rewrite !findConflictingFiles_cons.
  destruct (decide (modifiedOrRemoved f ∧ filename f ∈ currentModifiedFiles A))
    as [[Hf Hin]|Hno].
  - rewrite decide_True; [by apply sublist_skip|]. split; [done|].
    apply elem_of_currentModifiedFiles in Hin as (a & Ha & Hx & Hs).
    apply elem_of_currentModifiedFiles. exists a. auto.
  - destruct (decide _); [by apply sublist_cons|done].
Qed.

Lemma findConflictingFiles_mono_witness :
  findConflictingFiles [mkFileChange "a.ts" modified]
    [mkFileChange "b.ts" modified; mkFileChange "a.ts" removed]
  `sublist_of`
  findConflictingFiles [mkFileChange "b.ts" removed; mkFileChange "a.ts" modified]
    [mkFileChange "b.ts" modified; mkFileChange "a.ts" removed].
Proof.
  apply findConflictingFiles_mono.
  intros f ->%list_elem_of_singleton. right. left.
Defined.

(** X4: when the candidate list names each file once, so does the result. *)
Theorem findConflictingFiles_NoDup (A B : list FileChange) :
  NoDup (filename <$> B) → NoDup (findConflictingFiles A B).
Proof.
  intros Hnd.
  assert (Hs : findConflictingFiles A B `sublist_of` (filename <$> B)).
  { unfold findConflictingFiles. cbn zeta. apply fmap_sublist, sublist_filter. }
  exact (sublist_NoDup _ _ Hnd Hs).
Qed.

Lemma findConflictingFiles_NoDup_witness :
  NoDup (findConflictingFiles
           [mkFileChange "a.ts" modified; mkFileChange "b.ts" removed]
           [mkFileChange "b.ts" modified; mkFileChange "c.ts" added;
            mkFileChange "a.ts" removed]).
Proof.
  apply findConflictingFiles_NoDup.
  refine (bool_decide_unpack _ _). vm_compute. exact I.
Defined.

(** * Further properties of the file fetcher *)

Section FetcherRequests.

Variable repoInfo : RepositoryInfo.
Variable prNumber : Z.

Local Abbreviation request page :=
  (req_listFiles (listFilesParams repoInfo prNumber page)).
Local Abbreviation upstream page :=
  (pulls_listFiles (octokit repoInfo) (listFilesParams repoInfo prNumber page)).

Lemma getPRFiles_loop_requests fuel :
  ∀ files page, ∃ n,
    n ≤ fuel ∧
    (getPRFiles_loop fuel repoInfo prNumber files page).1
      = (λ page, request page) <$> seq page n.
Proof.
  induction fuel as [|fuel IH]; intros files page.
  - exists 0. done.
  - rewrite getPRFiles_loop_step.
    destruct (upstream page) as [t|data]; [exists 1; split; [lia|done]|].
    destruct (_ <? _); [exists 1; split; [lia|done]|].
    destruct (IH (files ++ (toFileChange <$> data)) (page + 1)) as (n & Hn & Htr).
    exists (S n). split; [lia|]. cbn zeta. cbn [fst]. rewrite Htr.
    cbn. by rewrite Nat.add_1_r.
Qed.

Lemma getPRFiles_loop_rejected (pages : list (list ApiFile)) (t : Thrown) :
  ∀ fuel files page,
    (∀ data, data ∈ pages → perPage ≤ length data) →
    (∀ i data, pages !! i = Some data → upstream (page + i) = inr data) →
    upstream (page + length pages) = inl t →
    length pages < fuel →
    getPRFiles_loop fuel repoInfo prNumber files page =
      ((λ page, request page) <$> seq page (S (length pages)), Throw t).
Proof.
  induction pages as [|data pages IH]; intros fuel files page Hfull Hup Hrej Hfuel;
    (destruct fuel as [|fuel]; [cbn in Hfuel; lia|]); rewrite getPRFiles_loop_step.
  - cbn in Hrej. rewrite Nat.add_0_r in Hrej. by rewrite Hrej.
  - rewrite <- (Nat.add_0_r page) at 1. rewrite (Hup 0 data eq_refl).
    assert ((length data <? perPage) = false) as ->.
    { apply Nat.ltb_ge, Hfull. left. }
    rewrite (IH fuel _ (page + 1)); cbn [length] in *; try lia.
    + cbn. by rewrite Nat.add_1_r.
    + intros d Hd. apply Hfull. by right.
    + intros i d Hi. rewrite <- Nat.add_assoc. apply (Hup (S i)). done.
    + rewrite <- Nat.add_assoc. exact Hrej.
Qed.

Lemma getPRFiles_loop_full_pages :
  (∀ page, ∃ data, upstream page = inr data ∧ perPage ≤ length data) →
  ∀ fuel files page,
    getPRFiles_loop fuel repoInfo prNumber files page =
      ((λ page, request page) <$> seq page fuel, Diverge).
Proof.
  intros Hfull. induction fuel as [|fuel IH]; intros files page; [done|].
  rewrite getPRFiles_loop_step.
  destruct (Hfull page) as (data & -> & Hlen).
  apply Nat.ltb_ge in Hlen. rewrite Hlen, IH. cbn. by rewrite Nat.add_1_r.
Qed.

End FetcherRequests.

(** X5: whatever the upstream answers, the fetcher does nothing but ask for
    the files of the PR it was given, page 1, 2, ..., n in this order, each
    page once and 100 entries per page. *)
Theorem getPRFiles_requests_in_order (fuel : nat) (repoInfo : RepositoryInfo)
    (prNumber : Z) :
  ∃ n, n ≤ fuel ∧
    (getPRFiles fuel repoInfo prNumber).1 =
      (λ page, req_listFiles
                 {| lf_owner := owner repoInfo; lf_repo := repo repoInfo;
                    lf_pull_number := prNumber; lf_per_page := 100;
                    lf_page := page |}) <$> seq 1 n.
Proof. apply getPRFiles_loop_requests. Qed.

(** X6: when a page request is rejected after full pages, the fetcher throws
    what the request was rejected with, unchanged and without asking again,
    and the pages received so far are not returned. *)
Theorem getPRFiles_propagates_rejection (repoInfo : RepositoryInfo) (prNumber : Z)
    (pages : list (list ApiFile)) (t : Thrown) (fuel : nat) :
  (∀ data, data ∈ pages → 100 ≤ length data) →
  (∀ i data, pages !! i = Some data →
     pulls_listFiles (octokit repoInfo) (listFilesParams repoInfo prNumber (1 + i))
       = inr data) →
  pulls_listFiles (octokit repoInfo)
    (listFilesParams repoInfo prNumber (1 + length pages)) = inl t →
  length pages < fuel →
  getPRFiles fuel repoInfo prNumber =
    ((λ page, req_listFiles (listFilesParams repoInfo prNumber page))
       <$> seq 1 (S (length pages)),
     Throw t).
Proof.
  intros Hfull Hup Hrej Hfuel. unfold getPRFiles.
  by apply getPRFiles_loop_rejected.
Qed.

Lemma getPRFiles_propagates_rejection_witness :
  getPRFiles 5 (testRepo (mockOctokit failsOnPage2 (inr []) (inr tt))) 7 =
    ((λ page, req_listFiles
                (listFilesParams
                   (testRepo (mockOctokit failsOnPage2 (inr []) (inr tt))) 7 page))
       <$> [1; 2],
     Throw (ErrorObj "Server Error")).
Proof.
  apply (getPRFiles_propagates_rejection _ 7%Z [page1Files]).
  - intros data ->%list_elem_of_singleton. vm_compute. lia.
  - intros [|i] data [= <-]. reflexivity.
  - reflexivity.
  - cbn. lia.
Defined.

(** X7: the loop has no page limit of its own: against an upstream that
    answers every page with at least 100 entries the fetcher never returns,
    it asks for page after page. *)
Theorem getPRFiles_unbounded (repoInfo : RepositoryInfo) (prNumber : Z) (fuel : nat) :
  (∀ page, ∃ data,
     pulls_listFiles (octokit repoInfo) (listFilesParams repoInfo prNumber page)
       = inr data ∧ 100 ≤ length data) →
  getPRFiles fuel repoInfo prNumber =
    ((λ page, req_listFiles (listFilesParams repoInfo prNumber page))
       <$> seq 1 fuel,
     Diverge).
Proof. intros Hfull. unfold getPRFiles. by apply getPRFiles_loop_full_pages. Qed.

Lemma getPRFiles_unbounded_witness :
  (getPRFiles 4 (testRepo (mockOctokit alwaysFull (inr []) (inr tt))) 7).2 = Diverge.
Proof.
  rewrite (getPRFiles_unbounded _ 7%Z 4); [done|].
  intros page. exists page1Files. split; [done|]. vm_compute. lia.
Defined.

(** * Further properties of the loop over the open PRs *)

Lemma bind_trace {A B} (m : M A) (k : A → M B) :
  (bind m k).1 = m.1 ++ match m.2 with Ok a => (k a).1 | _ => [] end.
Proof.
  destruct m as [tr [a|t|]]; cbn [fst snd]; [by rewrite bind_Ok|..];
    by rewrite app_nil_r.
Qed.

Lemma getPRFiles_trace_observed fuel repoInfo prNumber :
  warnings (getPRFiles fuel repoInfo prNumber).1 = [] ∧
  listRequests (getPRFiles fuel repoInfo prNumber).1 = [] ∧
  Forall (λ p, lf_pull_number p = prNumber)
         (listFilesRequests (getPRFiles fuel repoInfo prNumber).1).
Proof.
  destruct (getPRFiles_loop_requests repoInfo prNumber fuel [] 1) as (n & _ & Htr).
  unfold getPRFiles. rewrite Htr. generalize (seq 1 n). intros pages.
  induction pages as [|page pages (IHw & IHl & IHf)]; [by repeat split|].
  repeat split; try done. cbn. by constructor.
Qed.

Section LoopMore.

Variable fuel : nat.
Variable repoInfo : RepositoryInfo.
Variable currentNumber : Z.
Variable currentFiles : list FileChange.

Local Abbreviation loop includeDrafts prs acc :=
  (checkOpenPRs fuel repoInfo currentNumber includeDrafts currentFiles prs acc).
Local Abbreviation key r := (prNumber r, prTitle r).
Local Abbreviation keyOf pr := (number pr, title pr).

Lemma checkOpenPRs_fetches includeDrafts prs :
  ∀ acc,
    Forall (λ p, ∃ pr, pr ∈ prs ∧ lf_pull_number p = number pr ∧
                       number pr ≠ currentNumber ∧
                       (includeDrafts = false → draft pr ≠ Some true))
           (listFilesRequests (loop includeDrafts prs acc).1).
Proof.
  induction prs as [|pr prs IH]; intros acc; cbn [checkOpenPRs]; [constructor|].
  assert (Hweak : ∀ acc',
    Forall (λ p, ∃ pr', pr' ∈ pr :: prs ∧ lf_pull_number p = number pr' ∧
                        number pr' ≠ currentNumber ∧
                        (includeDrafts = false → draft pr' ≠ Some true))
           (listFilesRequests (loop includeDrafts prs acc').1)).
  { intros acc'. eapply Forall_impl; [apply IH|].
    intros p (pr' & Hin & H). exists pr'. split; [by right|done]. }
  destruct (number pr =? currentNumber)%Z eqn:Hnum; [apply Hweak|].
  destruct (truthy (draft pr) && negb includeDrafts) eqn:Hdraft; [apply Hweak|].
  rewrite bind_trace. unfold listFilesRequests. rewrite omap_app.
  apply Forall_app. split.
  - destruct (getPRFiles_trace_observed fuel repoInfo (number pr)) as (_ & _ & Hf).
    eapply Forall_impl; [exact Hf|]. intros p Hp. exists pr.
    repeat split; [left|done|by apply Z.eqb_neq|].
    intros -> Hd. by rewrite Hd in Hdraft.
  - destruct (getPRFiles _ _ _).2 as [files| |]; [|constructor..].
    destruct (0 <? _); [|apply Hweak]. rewrite bind_emit. apply Hweak.
Qed.

Lemma checkOpenPRs_completed includeDrafts prs :
  ∀ acc tr records,
    loop includeDrafts prs acc = (tr, Ok records) →
    ∃ new,
      records = acc ++ new ∧
      warnings tr = overlapWarning <$> new ∧
      ((λ r, key r) <$> new) `sublist_of` ((λ pr, keyOf pr) <$> prs) ∧
      Forall (λ r, conflictingFiles r ≠ [] ∧
                   ∀ x, x ∈ conflictingFiles r → x ∈ currentModifiedFiles currentFiles)
             new.
Proof.
  induction prs as [|pr prs IH]; intros acc tr records; cbn [checkOpenPRs].
  - intros [= <- <-]. exists []. by rewrite app_nil_r.
  - assert (Hskip : ∀ new : list ConflictWarning,
      ((λ r, key r) <$> new) `sublist_of` ((λ pr, keyOf pr) <$> prs) →
      ((λ r, key r) <$> new) `sublist_of` ((λ pr, keyOf pr) <$> pr :: prs)).
    { intros new. apply sublist_cons. }
    destruct (number pr =? currentNumber)%Z.
    { intros (new & -> & Hw & Hs & Hf)%IH. eauto 6. }
    destruct (truthy (draft pr) && negb includeDrafts).
    { intros (new & -> & Hw & Hs & Hf)%IH. eauto 6. }
    intros (tr1 & files & tr2 & Hfetch & Hrest & ->)%bind_Ok_inv.
    destruct (getPRFiles_trace_observed fuel repoInfo (number pr)) as (Hw1 & _).
    rewrite Hfetch in Hw1. cbn [fst] in Hw1.
    unfold warnings in *. rewrite omap_app, Hw1. cbn [app].
    destruct (0 <? _) eqn:Hlen.
    + apply bind_Ok_inv in Hrest as (? & [] & tr3 & [= <-] & Hrest & ->).
      apply IH in Hrest as (new & -> & Hw & Hs & Hf). rewrite <- app_assoc.
      eexists. split; [done|]. cbn. rewrite Hw. repeat split.
      * by apply sublist_skip.
      * constructor; [|done]. cbn. split.
        -- intros Hnil. by rewrite Hnil in Hlen.
        -- by intros x (_ & _ & _ & _ & Hx)%elem_of_findConflictingFiles.
    + apply IH in Hrest as (new & -> & Hw & Hs & Hf). eauto 6.
Qed.

Lemma checkOpenPRs_no_drafts prs :
  ∀ acc,
    Forall (λ pr, draft pr ≠ Some true) prs →
    loop true prs acc = loop false prs acc.
Proof.
  induction prs as [|pr prs IH]; intros acc Hnd; [done|].
  apply Forall_cons in Hnd as [Hpr Hnd]. cbn [checkOpenPRs].
  destruct (_ =? _)%Z; [by apply IH|].
  assert (truthy (draft pr) = false) as ->.
  { by destruct (draft pr) as [[]|]. }
  cbn [andb].
  destruct (getPRFiles _ _ _) as [tr [files|t|]]; [|done..].
  rewrite !bind_Ok. destruct (0 <? _).
  - rewrite !bind_emit. by rewrite IH.
  - by rewrite IH.
Qed.

End LoopMore.

(** X8: the loop asks for the files of no PR it skips: every file request it
    makes is for a listed PR other than the current one, and not for a draft
    unless drafts are included. *)
Theorem checkOpenPRs_fetches_only_checked (fuel : nat) (repoInfo : RepositoryInfo)
    (currentNumber : Z) (includeDrafts : bool) (currentFiles : list FileChange)
    (prs : list PullRequest) :
  Forall (λ p, ∃ pr, pr ∈ prs ∧ lf_pull_number p = number pr ∧
                     number pr ≠ currentNumber ∧
                     (includeDrafts = false → draft pr ≠ Some true))
         (listFilesRequests
            (checkOpenPRs fuel repoInfo currentNumber includeDrafts
                          currentFiles prs []).1).
Proof. apply checkOpenPRs_fetches. Qed.

(** X9: a loop that returns has logged exactly one warning per record, in
    the order of the records, each naming the record's PR number and its
    number of overlapping files. *)
Theorem checkOpenPRs_one_warning_per_record (fuel : nat) (repoInfo : RepositoryInfo)
    (currentNumber : Z) (includeDrafts : bool) (currentFiles : list FileChange)
    (prs : list PullRequest) (tr : list Event) (records : list ConflictWarning) :
  checkOpenPRs fuel repoInfo currentNumber includeDrafts currentFiles prs []
    = (tr, Ok records) →
  warnings tr =
    (λ r, "PR #" +:+ showZ (prNumber r) +:+ " may have conflicts: "
            +:+ showNat (length (conflictingFiles r)) +:+ " overlapping files")
      <$> records.
Proof.
  intros (new & -> & Hw & _)%checkOpenPRs_completed. exact Hw.
Qed.

Lemma checkOpenPRs_one_warning_per_record_witness :
  warnings (checkOpenPRs 5 (testRepo (sharedOctokit (inr tt))) 1 true
              [mkFileChange "shared.ts" modified] draftPRs []).1
  = ["PR #2 may have conflicts: 1 overlapping files";
     "PR #3 may have conflicts: 1 overlapping files"].
Proof.
  apply (checkOpenPRs_one_warning_per_record 5 (testRepo (sharedOctokit (inr tt)))
           1%Z true [mkFileChange "shared.ts" modified] draftPRs _
           [mkConflictWarning 2 "Draft PR" ["shared.ts"];
            mkConflictWarning 3 "Other PR" ["shared.ts"]]).
  vm_compute. reflexivity.
Defined.

(** X10: the records of a loop that returns follow the order of the listing,
    at most one per listed PR; every record names at least one file, and only
    files that the current PR modifies or removes. *)
Theorem checkOpenPRs_records_follow_listing (fuel : nat) (repoInfo : RepositoryInfo)
    (currentNumber : Z) (includeDrafts : bool) (currentFiles : list FileChange)
    (prs : list PullRequest) (tr : list Event) (records : list ConflictWarning) :
  checkOpenPRs fuel repoInfo currentNumber includeDrafts currentFiles prs []
    = (tr, Ok records) →
  ((λ r, (prNumber r, prTitle r)) <$> records)
    `sublist_of` ((λ pr, (number pr, title pr)) <$> prs)
  ∧ length records ≤ length prs
  ∧ Forall (λ r, conflictingFiles r ≠ [] ∧
                 ∀ x, x ∈ conflictingFiles r →
                      ∃ a, a ∈ currentFiles ∧ filename a = x ∧ modifiedOrRemoved a)
           records.
Proof.
  intros (new & -> & _ & Hs & Hf)%checkOpenPRs_completed. cbn [app].
  split; [exact Hs|]. split.
  - apply sublist_length in Hs. by rewrite !length_fmap in Hs.
  - eapply Forall_impl; [exact Hf|]. intros r [Hne Hin]. split; [done|].
    intros x Hx. by apply elem_of_currentModifiedFiles, Hin.
Qed.

Lemma checkOpenPRs_records_follow_listing_witness :
  length [mkConflictWarning 3 "Other PR" ["shared.ts"]] ≤ length draftPRs.
Proof.
  apply (checkOpenPRs_records_follow_listing 5 (testRepo (sharedOctokit (inr tt)))
           1%Z false [mkFileChange "shared.ts" modified] draftPRs
           (checkOpenPRs 5 (testRepo (sharedOctokit (inr tt))) 1 false
              [mkFileChange "shared.ts" modified] draftPRs []).1).
  vm_compute. reflexivity.
Defined.

(** X17: when no listed PR is a draft, the loop does the same with drafts
    included as without. *)
Theorem checkOpenPRs_drafts_flag_irrelevant (fuel : nat) (repoInfo : RepositoryInfo)
    (currentNumber : Z) (currentFiles : list FileChange) (prs : list PullRequest) :
  Forall (λ pr, draft pr ≠ Some true) prs →
  checkOpenPRs fuel repoInfo currentNumber true currentFiles prs []
  = checkOpenPRs fuel repoInfo currentNumber false currentFiles prs [].
Proof. apply checkOpenPRs_no_drafts. Qed.

Lemma checkOpenPRs_drafts_flag_irrelevant_witness :
  checkOpenPRs 5 (testRepo (sharedOctokit (inr tt))) 1 true
    [mkFileChange "shared.ts" modified] ordinaryPRs []
  = checkOpenPRs 5 (testRepo (sharedOctokit (inr tt))) 1 false
    [mkFileChange "shared.ts" modified] ordinaryPRs [].
Proof.
  apply checkOpenPRs_drafts_flag_irrelevant.
  repeat constructor; discriminate.
Defined.

(** * Further properties of a run *)

Lemma fetchPhaseEvent_no_comment (tr : list Event) :
  Forall (λ e, fetchPhaseEvent e = true) tr → commentRequests tr = [].
Proof.
  induction 1 as [|e tr He _ IH]; [done|].
  unfold commentRequests in *. by destruct e.
Qed.

Lemma checkOpenPRs_no_listing fuel repoInfo currentNumber includeDrafts
    currentFiles prs :
  ∀ acc,
    listRequests (checkOpenPRs fuel repoInfo currentNumber includeDrafts
                               currentFiles prs acc).1 = [].
Proof.
  induction prs as [|pr prs IH]; intros acc; cbn [checkOpenPRs]; [done|].
  destruct (_ =? _)%Z; [apply IH|]. destruct (_ && _); [apply IH|].
  rewrite bind_trace. unfold listRequests in *. rewrite omap_app.
  destruct (getPRFiles_trace_observed fuel repoInfo (number pr)) as (_ & Hl & _).
  unfold listRequests in Hl. rewrite Hl. cbn [app].
  destruct (getPRFiles _ _ _).2 as [files| |]; [|done..].
  destruct (0 <? _); [|apply IH]. rewrite bind_emit. apply IH.
Qed.

Lemma listRequests_app tr tr' :
  listRequests (tr ++ tr') = listRequests tr ++ listRequests tr'.
Proof. apply omap_app. Qed.

Lemma listRequests_info msg tr :
  listRequests (core_info msg :: tr) = listRequests tr.
Proof. reflexivity. Qed.

Lemma commentRequests_app tr tr' :
  commentRequests (tr ++ tr') = commentRequests tr ++ commentRequests tr'.
Proof. apply omap_app. Qed.

Lemma collectConflicts_listing fuel includeDrafts repoInfo currentPR :
  listRequests (collectConflicts fuel includeDrafts repoInfo currentPR).1 = []
  ∨ listRequests (collectConflicts fuel includeDrafts repoInfo currentPR).1
      = [openPRsParams repoInfo].
Proof.
  unfold collectConflicts. rewrite bind_emit. cbn [fst].
  rewrite !listRequests_info, bind_trace, !listRequests_app.
  destruct (getPRFiles_trace_observed fuel repoInfo (payload_number currentPR))
    as (_ & Hl & _).
  rewrite Hl. cbn [app].
  destruct (getPRFiles _ _ _).2 as [files| |]; [|by left..].
  rewrite bind_emit. cbn [fst]. rewrite !listRequests_info, bind_trace.
  right. unfold await.
  destruct (pulls_list _ _) as [t|prs]; cbn [fst snd]; [done|].
  by rewrite listRequests_app, checkOpenPRs_no_listing.
Qed.

Section RunMore.

Variable JSON_stringify : list ConflictWarning → string.

Lemma reportEvents_commentRequests postComments repoInfo currentPR records :
  commentRequests (reportEvents JSON_stringify postComments repoInfo currentPR records)
  = if (0 <? length records) && postComments
    then [commentParams repoInfo (payload_number currentPR) records]
    else [].
Proof.
  unfold reportEvents, commentRequests. destruct (0 <? length records); [|done].
  rewrite !omap_app. destruct postComments; [|done].
  unfold postingEvents. cbn zeta.
  by destruct (issues_createComment _ _) as [[m|v]|[]].
Qed.

Lemma reportEvents_listRequests postComments repoInfo currentPR records :
  listRequests (reportEvents JSON_stringify postComments repoInfo currentPR records)
  = [].
Proof.
  unfold reportEvents, listRequests. destruct (0 <? length records); [|done].
  rewrite !omap_app. destruct postComments; [|done].
  unfold postingEvents. cbn zeta.
  by destruct (issues_createComment _ _) as [[m|v]|[]].
Qed.

Lemma collectConflicts_no_comment fuel includeDrafts repoInfo currentPR :
  commentRequests (collectConflicts fuel includeDrafts repoInfo currentPR).1 = [].
Proof.
  apply fetchPhaseEvent_no_comment.
  apply (fetchPhase_collectConflicts repoInfo fuel includeDrafts currentPR).
Qed.



(** X13: a run posts at most one comment, and exactly when [post-comments]
    is on and the records it has found are not empty; the comment goes to the
    current PR in the workflow's repository, and its body is the very summary
    the run has written. *)
Theorem run_comments_once fuel env :
  commentRequests (run JSON_stringify fuel env).1 =
    match context_payload_pull_request env with
    | None => []
    | Some currentPR =>
        match (collectConflicts fuel (input_include_drafts env)
                                (repoInfoOf env) currentPR).2 with
        | Ok records =>
            if (0 <? length records) && input_post_comments env
            then [ {| cc_owner := (context_repo env).1;
                      cc_repo := (context_repo env).2;
                      cc_issue_number := payload_number currentPR;
                      cc_body := generateSummary records |} ]
            else []
        | _ => []
        end
    end
  ∧ Forall (λ p, summaries (run JSON_stringify fuel env).1 = [cc_body p])
           (commentRequests (run JSON_stringify fuel env).1).
Proof.
  rewrite run_eq.
  destruct (context_payload_pull_request env) as [currentPR|];
    [|by split; [|constructor]].
  cbn zeta.
  pose proof (collectConflicts_silent fuel (input_include_drafts env)
                (repoInfoOf env) currentPR) as (_ & _ & Hs & _).
  pose proof (collectConflicts_no_comment fuel (input_include_drafts env)
                (repoInfoOf env) currentPR) as Hc.
  destruct (collectConflicts _ _ _ _) as [tr [records|[m|v]|]];
    cbn [fst snd] in *;
    change (debugEvent env :: ?l) with ([debugEvent env] ++ l);
    rewrite ?commentRequests_app, Hc; try (by split; [|constructor]).
  rewrite reportEvents_commentRequests, !summaries_app, Hs,
    reportEvents_summaries.
  destruct (0 <? length records); [|by split; [|constructor]].
  destruct (input_post_comments env); [|by split; [|constructor]].
  split; [done|]. by repeat constructor.
Qed.

(** X14: a run lists the open PRs at most once, with [state: 'open'] and
    [per_page: 100]: the listing itself is never paged. *)
Theorem run_lists_once fuel env :
  listRequests (run JSON_stringify fuel env).1 = []
  ∨ listRequests (run JSON_stringify fuel env).1
      = [ {| l_owner := (context_repo env).1; l_repo := (context_repo env).2;
             l_state := "open"; l_per_page := 100 |} ].
Proof.
  rewrite run_eq.
  destruct (context_payload_pull_request env) as [currentPR|]; [|by left].
  cbn zeta.
  pose proof (collectConflicts_listing fuel (input_include_drafts env)
                (repoInfoOf env) currentPR) as Hl.
  destruct (collectConflicts _ _ _ _) as [tr [records|[m|v]|]];
    cbn [fst snd] in *;
    change (debugEvent env :: ?l) with ([debugEvent env] ++ l);
    unfold listRequests in *; rewrite ?omap_app; cbn [omap app];
    rewrite ?app_nil_r; try exact Hl.
  fold (listRequests (reportEvents JSON_stringify (input_post_comments env)
                        (repoInfoOf env) currentPR records)).
  rewrite reportEvents_listRequests, app_nil_r. exact Hl.
Qed.

End RunMore.

Section RunPosting.

Variable JSON_stringify : list ConflictWarning → string.

Lemma reportEvents_listFilesRequests postComments repoInfo currentPR records :
  listFilesRequests
    (reportEvents JSON_stringify postComments repoInfo currentPR records) = [].
Proof.
  unfold reportEvents, listFilesRequests. destruct (0 <? length records); [|done].
  rewrite !omap_app. destruct postComments; [|done].
  unfold postingEvents. cbn zeta.
  by destruct (issues_createComment _ _) as [[m|v]|[]].
Qed.

(** X15: when the comment request succeeds, the run logs that the comment
    was posted, then its closing line, and ends without failure and without
    a warning about posting. *)
Theorem posting_success_is_logged fuel env p :
  req_createComment p ∈ (run JSON_stringify fuel env).1 →
  issues_createComment (getOctokit env (input_github_token env)) p = inr tt →
  ∃ before (records : list ConflictWarning),
    run JSON_stringify fuel env =
      (before ++
         [ req_createComment p;
           core_info "Posted conflict warning comment to PR";
           core_info ("Found " +:+ showNat (length records)
                        +:+ " PRs with potential conflicts") ],
       Ok tt)
    ∧ 0 < length records
    ∧ failures (run JSON_stringify fuel env).1 = [].
Proof.
  intros Hin Hok.
  destruct (run_posting JSON_stringify fuel env p Hin)
    as (currentPR & tr0 & records & Hp & Hc & Hlen & Hpost & -> & Hrun).
  pose proof (collectConflicts_silent fuel (input_include_drafts env)
                (repoInfoOf env) currentPR) as (_ & Hf & _).
  rewrite Hc in Hf. cbn [fst] in Hf.
  rewrite Hrun. unfold postingEvents. cbn zeta.
  change (octokit (repoInfoOf env)) with (getOctokit env (input_github_token env)).
  rewrite Hok. eexists _, records. split; [reflexivity|]. split; [done|].
  cbn [fst]. change (debugEvent env :: ?l) with ([debugEvent env] ++ l).
  rewrite !failures_app, Hf. done.
Qed.

(** X18: [post-comments] decides nothing but the comment: with it on or off,
    and whether or not the comment request succeeds, a run requests the same
    files, sets the same outputs, writes the same summary and ends the same
    way. *)
Theorem post_comments_only_posts fuel env b :
  (run JSON_stringify fuel (withPostComments b env)).2
    = (run JSON_stringify fuel env).2
  ∧ outputs (run JSON_stringify fuel (withPostComments b env)).1
    = outputs (run JSON_stringify fuel env).1
  ∧ failures (run JSON_stringify fuel (withPostComments b env)).1
    = failures (run JSON_stringify fuel env).1
  ∧ summaries (run JSON_stringify fuel (withPostComments b env)).1
    = summaries (run JSON_stringify fuel env).1
  ∧ listFilesRequests (run JSON_stringify fuel (withPostComments b env)).1
    = listFilesRequests (run JSON_stringify fuel env).1.
Proof.
  rewrite !run_eq.
  change (context_payload_pull_request (withPostComments b env))
    with (context_payload_pull_request env).
  change (repoInfoOf (withPostComments b env)) with (repoInfoOf env).
  change (input_include_drafts (withPostComments b env))
    with (input_include_drafts env).
  change (debugEvent (withPostComments b env)) with (debugEvent env).
  destruct (context_payload_pull_request env) as [currentPR|]; [|done].
  cbn zeta.
  destruct (collectConflicts _ _ _ _) as [tr [records|[m|v]|]];
    cbn [fst snd]; try done.
  change (debugEvent env :: ?l) with ([debugEvent env] ++ l).
  rewrite !outputs_app, !failures_app, !summaries_app, !reportEvents_outputs,
    !reportEvents_failures, !reportEvents_summaries.
  repeat split. unfold listFilesRequests. rewrite !omap_app.
  fold (listFilesRequests (reportEvents JSON_stringify b (repoInfoOf env)
                             currentPR records)).
  fold (listFilesRequests (reportEvents JSON_stringify (input_post_comments env)
                             (repoInfoOf env) currentPR records)).
  by rewrite !reportEvents_listFilesRequests.
Qed.

End RunPosting.

Lemma posting_success_is_logged_witness :
  let env := mockEnv false true (sharedOctokit (inr tt))
                     (Some (mkPullRequestPayload 1)) in
  let p := commentParams (repoInfoOf env) 1
             [mkConflictWarning 3 "Other PR" ["shared.ts"]] in
  ∃ before (records : list ConflictWarning),
    run sampleStringify 5 env =
      (before ++ [req_createComment p;
                  core_info "Posted conflict warning comment to PR";
                  foundEvent records], Ok tt)
    ∧ 0 < length records
    ∧ failures (run sampleStringify 5 env).1 = [].
Proof.
  intros env p.
  apply (posting_success_is_logged sampleStringify 5 env p).
  - in_trace.
  - reflexivity.
Defined.

(** * Further properties of the summary *)

Lemma take_min_length {X} (l : list X) (n : nat) :
  take (length l `min` n) l = take n l.
Proof.
  destruct (Nat.le_ge_cases (length l) n).
  - rewrite Nat.min_l by done. by rewrite !take_ge.
  - by rewrite Nat.min_r.
Qed.

(** X16: of a record's files the summary shows the first ten and the count,
    nothing else: two records with the same number, title, file count and
    first ten files give the same summary, whatever the other files are. *)
Theorem generateSummary_truncates (before after : list ConflictWarning)
    (w w' : ConflictWarning) :
  prNumber w = prNumber w' →
  prTitle w = prTitle w' →
  length (conflictingFiles w) = length (conflictingFiles w') →
  take 10 (conflictingFiles w) = take 10 (conflictingFiles w') →
  generateSummary (before ++ w :: after) = generateSummary (before ++ w' :: after).
Proof.
  intros Hn Ht Hl Hfiles. rewrite !generateSummary_document.
  unfold summaryDocument. rewrite !fmap_app, !fmap_cons.
  assert (summaryBlock w = summaryBlock w') as ->; [|done].
  unfold summaryBlock. cbn zeta.
  by rewrite !take_min_length, Hn, Ht, Hl, Hfiles.
Qed.

Lemma generateSummary_truncates_witness :
  generateSummary
    [mkConflictWarning 7 "Refactor"
       ["a"; "b"; "c"; "d"; "e"; "f"; "g"; "h"; "i"; "j"; "k"; "l"]]
  = generateSummary
    [mkConflictWarning 7 "Refactor"
       ["a"; "b"; "c"; "d"; "e"; "f"; "g"; "h"; "i"; "j"; "y"; "z"]].
Proof.
  apply (generateSummary_truncates [] []); reflexivity.
Defined.

(** * The action with its reads *)

Lemma bind_ret {A B} (a : A) (k : A → M B) : bind (ret a) k = k a.
Proof. unfold ret. rewrite bind_Ok. by destruct (k a). Qed.

Section RunMainProperties.

Variable JSON_stringify : list ConflictWarning → string.

(** When every read returns, the action is the run on the values read. *)
Lemma run_main_reads fuel tk includeDrafts postComments token oct ownerRepo :
  core_getBooleanInput tk "include-drafts" = inr includeDrafts →
  core_getBooleanInput tk "post-comments" = inr postComments →
  core_getInput tk "github_token" = inr token →
  github_getOctokit tk token = inr oct →
  github_context_repo tk = inr ownerRepo →
  run_main JSON_stringify fuel tk =
    run JSON_stringify fuel
        (environmentRead includeDrafts postComments token oct ownerRepo
                         (github_context_payload tk)).
Proof.
  intros Hd Hp Ht Ho Hr. unfold run_main, run. f_equal.
  unfold run_main_try, run_try. rewrite Hd, Hp. unfold call.
  rewrite !bind_ret, !bind_emit, Ht, !bind_ret, Ho, !bind_ret, Hr, !bind_ret.
  cbn [input_include_drafts input_post_comments input_github_token getOctokit
       context_repo context_payload_pull_request environmentRead].
  by destruct ownerRepo.
Qed.

(** C5: when the three inputs, the client and the repository have been read
    without a throw and the payload has no pull request, the run fails at
    once with the fixed message; and when a file or PR listing request is
    rejected with an [Error], the run ends failed with that error's message
    and nothing else after the request.  Either way no output is set. *)
Theorem run_main_fails_without_outputs fuel tk includeDrafts postComments
    token oct ownerRepo :
  core_getBooleanInput tk "include-drafts" = inr includeDrafts →
  core_getBooleanInput tk "post-comments" = inr postComments →
  core_getInput tk "github_token" = inr token →
  github_getOctokit tk token = inr oct →
  github_context_repo tk = inr ownerRepo →
  (github_context_payload tk = None →
     run_main JSON_stringify fuel tk =
       ([core_debug ("Include draft PRs: " +:+ showBool includeDrafts);
         core_setFailed "This action must be triggered by a pull_request event"],
        Ok tt)
     ∧ outputs (run_main JSON_stringify fuel tk).1 = [])
  ∧ (∀ e message,
       e ∈ (run_main JSON_stringify fuel tk).1 →
       rejection oct e = Some (ErrorObj message) →
       (run_main JSON_stringify fuel tk).2 = Ok tt
       ∧ (∃ before, (run_main JSON_stringify fuel tk).1
                      = before ++ [e; core_setFailed message])
       ∧ failures (run_main JSON_stringify fuel tk).1 = [message]
       ∧ outputs (run_main JSON_stringify fuel tk).1 = []).
Proof.
  intros Hd Hp Ht Ho Hr.
  rewrite (run_main_reads fuel tk _ _ _ _ _ Hd Hp Ht Ho Hr).
  destruct (run_fails_without_outputs JSON_stringify fuel
              (environmentRead includeDrafts postComments token oct ownerRepo
                               (github_context_payload tk))) as [Hnone Hrej].
  split.
  - intros Hpayload. by apply Hnone.
  - intros e message Hin He. by apply Hrej.
Qed.

(** X19: a read that throws ends the run before any request: an [Error]
    thrown by one of the two flags, the token, the client or the repository
    is reported by [setFailed] with its message, anything else is dropped;
    only the debug line can have been logged, when both flags were read. *)
Theorem run_main_read_rejected fuel tk t :
  (core_getBooleanInput tk "include-drafts" = inl t →
     run_main JSON_stringify fuel tk = onRunError t)
  ∧ (∀ includeDrafts,
       core_getBooleanInput tk "include-drafts" = inr includeDrafts →
       core_getBooleanInput tk "post-comments" = inl t →
       run_main JSON_stringify fuel tk = onRunError t)
  ∧ (∀ includeDrafts postComments,
       core_getBooleanInput tk "include-drafts" = inr includeDrafts →
       core_getBooleanInput tk "post-comments" = inr postComments →
       core_getInput tk "github_token" = inl t →
       run_main JSON_stringify fuel tk =
         (core_debug ("Include draft PRs: " +:+ showBool includeDrafts)
            :: (onRunError t).1, Ok tt))
  ∧ (∀ includeDrafts postComments token,
       core_getBooleanInput tk "include-drafts" = inr includeDrafts →
       core_getBooleanInput tk "post-comments" = inr postComments →
       core_getInput tk "github_token" = inr token →
       github_getOctokit tk token = inl t →
       run_main JSON_stringify fuel tk =
         (core_debug ("Include draft PRs: " +:+ showBool includeDrafts)
            :: (onRunError t).1, Ok tt))
  ∧ (∀ includeDrafts postComments token oct,
       core_getBooleanInput tk "include-drafts" = inr includeDrafts →
       core_getBooleanInput tk "post-comments" = inr postComments →
       core_getInput tk "github_token" = inr token →
       github_getOctokit tk token = inr oct →
       github_context_repo tk = inl t →
       run_main JSON_stringify fuel tk =
         (core_debug ("Include draft PRs: " +:+ showBool includeDrafts)
            :: (onRunError t).1, Ok tt)).
Proof.
  unfold run_main, run_main_try, call. repeat split.
  - intros ->. cbn. by destruct (onRunError t).
  - intros d -> ->. rewrite bind_ret. cbn. by destruct (onRunError t).
  - intros d p -> -> Ht. rewrite !bind_ret, bind_emit, Ht. cbn.
    by destruct t.
  - intros d p token -> -> Ht Ho.
    rewrite !bind_ret, bind_emit, Ht, bind_ret, Ho. cbn. by destruct t.
  - intros d p token oct -> -> Ht Ho Hr.
    rewrite !bind_ret, bind_emit, Ht, bind_ret, Ho, bind_ret, Hr. cbn.
    by destruct t.
Qed.

End RunMainProperties.

Lemma run_main_fails_without_outputs_witness :
  let noPR := mockToolkit (inr false) (inr false) (inr "fake-token")
                          (sharedOctokit (inr tt)) None in
  let limited := mockToolkit (inr false) (inr false) (inr "fake-token")
                   (mockOctokit rateLimited (inr draftPRs) (inr tt))
                   (Some (mkPullRequestPayload 1)) in
  (run_main sampleStringify 5 noPR =
     ([core_debug "Include draft PRs: false";
       core_setFailed "This action must be triggered by a pull_request event"],
      Ok tt)
   ∧ outputs (run_main sampleStringify 5 noPR).1 = [])
  ∧ ((run_main sampleStringify 5 limited).2 = Ok tt
     ∧ (∃ before, (run_main sampleStringify 5 limited).1
          = before ++ [req_listFiles
                         {| lf_owner := "test-owner"; lf_repo := "test-repo";
                            lf_pull_number := 1; lf_per_page := 100;
                            lf_page := 1 |};
                       core_setFailed "API rate limit exceeded"])
     ∧ failures (run_main sampleStringify 5 limited).1 = ["API rate limit exceeded"]
     ∧ outputs (run_main sampleStringify 5 limited).1 = []).
Proof.
  intros noPR limited. split.
  - apply (proj1 (run_main_fails_without_outputs sampleStringify 5 noPR
                    false false "fake-token" (sharedOctokit (inr tt))
                    ("test-owner", "test-repo")
                    eq_refl eq_refl eq_refl eq_refl eq_refl)).
    reflexivity.
  - apply (proj2 (run_main_fails_without_outputs sampleStringify 5 limited
                    false false "fake-token"
                    (mockOctokit rateLimited (inr draftPRs) (inr tt))
                    ("test-owner", "test-repo")
                    eq_refl eq_refl eq_refl eq_refl eq_refl)).
    + in_trace.
    + reflexivity.
Defined.

(** C5 as the specification words it, for every run whose payload has no
    pull request, fails where the token is not supplied: the read of line 29
    throws before the payload is looked at, and the run reports that. *)
Lemma run_main_without_token_counterexample :
  github_context_payload noTokenNoPayload = None
  ∧ run_main sampleStringify 5 noTokenNoPayload =
      ([core_debug "Include draft PRs: false";
        core_setFailed "Input required and not supplied: github_token"],
       Ok tt)
  ∧ failures (run_main sampleStringify 5 noTokenNoPayload).1
      ≠ ["This action must be triggered by a pull_request event"].
Proof. repeat split. vm_compute. discriminate. Qed.

Lemma run_main_read_rejected_witness :
  run_main sampleStringify 5 noTokenNoPayload =
    ([core_debug "Include draft PRs: false";
      core_setFailed "Input required and not supplied: github_token"],
     Ok tt).
Proof.
  exact (proj1 (proj2 (proj2
           (run_main_read_rejected sampleStringify 5 noTokenNoPayload
              (ErrorObj "Input required and not supplied: github_token"))))
           false false eq_refl eq_refl eq_refl).
Defined.
